(** * esp_gpio: the Espressif dedicated-GPIO bit-bang adapter driver

    A shallow embedding of [src/jtag/drivers/esp_gpio.c] and the properties
    of its entry points: the JTAG and SWD signal primitives, the reset
    lines, the speed bookkeeping, the pin-number configuration commands and
    adapter initialisation.

    The driver's file-scope statics become the fields of [driver_state].
    Every call that leaves the file towards the platform (esp-idf) is
    recorded, in program order, in [hw_calls]; the one platform register the
    driver's mask constants speak about, the CPU's dedicated-GPIO output
    word, is kept beside it.  A C function body is a computation in a small
    state monad with an early [Return], so that [return X;] in the middle of
    a body reads the same way here. *)

From Stdlib Require Import ZArith List String Bool Lia.
Import ListNotations.

Local Open Scope string_scope.
Local Open Scope list_scope.
Local Open Scope Z_scope.

(** ** Constants of the surrounding headers *)

(** helper/log.h *)
Definition ERROR_OK : Z := 0.
Definition ERROR_FAIL : Z := -4.
(** helper/command.h *)
Definition ERROR_COMMAND_SYNTAX_ERROR : Z := -601.
(** esp_err.h *)
Definition ESP_OK : Z := 0.
(** hal/gpio_types.h: the pin number of a signal that is not connected. *)
Definition GPIO_NUM_NC : Z := -1.

(** mask values depend on the location in the gpio bundle array *)
Definition GPIO_TDO_MASK : Z := 0x01.   (* input *)
(* outputs *)
Definition GPIO_TCK_MASK : Z := 0x01.
Definition GPIO_TDI_MASK : Z := 0x02.
Definition GPIO_TMS_MASK : Z := 0x04.
Definition GPIO_TRST_MASK : Z := 0x08.
Definition GPIO_SRST_MASK : Z := 0x10.
Definition GPIO_BLINK_MASK : Z := 0x20.

(** A C scalar used as a condition: anything but zero is true. *)
Definition c_true (x : Z) : bool := negb (x =? 0).

(** ** What the driver expects from its surroundings *)

(** The pin-validity macros of the SoC the driver is built for
    (soc/gpio.h). *)
Class Soc := {
  GPIO_IS_VALID_GPIO : Z -> bool;
  GPIO_IS_VALID_OUTPUT_GPIO : Z -> bool
}.

(** Result of the command helper's [parse_int]: the number, or the error
    code that [COMMAND_PARSE_NUMBER] hands back to the command's caller. *)
Inductive parse_result :=
  | ParseOk (n : Z)
  | ParseErr (code : Z).

Class CommandHelper := {
  parse_int : string -> parse_result
}.

(** The two transport queries [esp_gpio_init] makes, with the answers they
    give during one call. *)
Record transport_queries := {
  transport_is_jtag : bool;
  transport_is_swd : bool
}.

(** Modelled from the spec: [transport_is_jtag] and [transport_is_swd] live
    in the transport layer, outside this file.  The session's transport is
    an enum-like value, one of JTAG and SWD, fixed before initialisation;
    each query answers whether it is the session's transport. *)
Inductive TransportMode := JTAG | SWD.

(** Modelled from the spec: the answers of [transport_is_jtag()] and
    [transport_is_swd()], which are not part of this file, in a session
    whose transport is [m]. *)
Definition session (m : TransportMode) : transport_queries :=
  match m with
  | JTAG => {| transport_is_jtag := true; transport_is_swd := false |}
  | SWD => {| transport_is_jtag := false; transport_is_swd := true |}
  end.

(** ** Platform calls *)

Inductive gpio_mode_t :=
  | GPIO_MODE_INPUT
  | GPIO_MODE_OUTPUT
  | GPIO_MODE_INPUT_OUTPUT.

Record dedic_gpio_bundle_config_t := {
  gpio_array : list Z;
  array_size : nat;
  flags_in_en : bool;
  flags_out_en : bool
}.

(** One call into esp-idf, with its arguments. *)
Inductive hw_call :=
  | Call_gpio_set_direction (g : Z) (mode : gpio_mode_t)
  | Call_gpio_set_level (g : Z) (level : Z)
  | Call_gpio_ll_set_level (g : Z) (level : Z)
  | Call_dedic_gpio_new_bundle (config : dedic_gpio_bundle_config_t)
  | Call_dedic_gpio_cpu_ll_write_mask (mask value : Z).

(** The bundle configurations among a run of platform calls. *)
Fixpoint bundles_requested (l : list hw_call) : list dedic_gpio_bundle_config_t :=
  match l with
  | [] => []
  | Call_dedic_gpio_new_bundle config :: l' => config :: bundles_requested l'
  | _ :: l' => bundles_requested l'
  end.

(** ** Driver state *)

(** GPIO numbers of the nine signals. *)
Record pin_config := {
  tck_gpio : Z;
  tms_gpio : Z;
  tdi_gpio : Z;
  tdo_gpio : Z;
  trst_gpio : Z;
  srst_gpio : Z;
  blink_gpio : Z;
  swdio_gpio : Z;
  swclk_gpio : Z
}.

(** The functions [esp_gpio_bitbang.blink] can point to. *)
Inductive blink_fn := fn_esp_gpio_blink | fn_esp_gpio_swdio_blink.

(** What the global [bitbang_interface] can point to. *)
Inductive bitbang_ref := ref_esp_gpio_bitbang.

Inductive log_level := LOG_LVL_INFO | LOG_LVL_ERROR | LOG_LVL_DEBUG.

Record driver_state := {
  pins : pin_config;
  jtag_delay : Z;
  s_jtag_speed_khz : Z;
  gpio_in_bundle : option dedic_gpio_bundle_config_t;
  gpio_out_bundle : option dedic_gpio_bundle_config_t;
  esp_gpio_bitbang_blink : option blink_fn;
  bitbang_interface : option bitbang_ref;
  (* platform side *)
  dedic_out : Z;           (* dedicated-GPIO output word of the CPU *)
  dedic_in : Z;            (* dedicated-GPIO input word of the CPU *)
  gpio_in : Z -> Z;        (* level seen at each pin *)
  hw_calls : list hw_call; (* platform calls so far, oldest first *)
  (* diagnostics *)
  log : list (log_level * string);
  cmd_out : list (string * list Z)
}.

(** GPIO default values for each pin *)
Definition default_pins : pin_config :=
  {| tck_gpio := GPIO_NUM_NC; tms_gpio := GPIO_NUM_NC; tdi_gpio := GPIO_NUM_NC;
     tdo_gpio := GPIO_NUM_NC; trst_gpio := GPIO_NUM_NC; srst_gpio := GPIO_NUM_NC;
     blink_gpio := GPIO_NUM_NC; swdio_gpio := GPIO_NUM_NC;
     swclk_gpio := GPIO_NUM_NC |}.

(** The statics as the C initialisers leave them, over quiet hardware. *)
Definition startup_state : driver_state :=
  {| pins := default_pins;
     jtag_delay := 0;
     s_jtag_speed_khz := 0;
     gpio_in_bundle := None;
     gpio_out_bundle := None;
     esp_gpio_bitbang_blink := None;
     bitbang_interface := None;
     dedic_out := 0;
     dedic_in := 0;
     gpio_in := fun _ => 0;
     hw_calls := [];
     log := [];
     cmd_out := [] |}.

(** *** Field updates *)

Definition set_tck_gpio (v : Z) (p : pin_config) : pin_config :=
  {| tck_gpio := v; tms_gpio := tms_gpio p; tdi_gpio := tdi_gpio p;
     tdo_gpio := tdo_gpio p; trst_gpio := trst_gpio p; srst_gpio := srst_gpio p;
     blink_gpio := blink_gpio p; swdio_gpio := swdio_gpio p;
     swclk_gpio := swclk_gpio p |}.

Definition set_tms_gpio (v : Z) (p : pin_config) : pin_config :=
  {| tck_gpio := tck_gpio p; tms_gpio := v; tdi_gpio := tdi_gpio p;
     tdo_gpio := tdo_gpio p; trst_gpio := trst_gpio p; srst_gpio := srst_gpio p;
     blink_gpio := blink_gpio p; swdio_gpio := swdio_gpio p;
     swclk_gpio := swclk_gpio p |}.

Definition set_tdi_gpio (v : Z) (p : pin_config) : pin_config :=
  {| tck_gpio := tck_gpio p; tms_gpio := tms_gpio p; tdi_gpio := v;
     tdo_gpio := tdo_gpio p; trst_gpio := trst_gpio p; srst_gpio := srst_gpio p;
     blink_gpio := blink_gpio p; swdio_gpio := swdio_gpio p;
     swclk_gpio := swclk_gpio p |}.

Definition set_tdo_gpio (v : Z) (p : pin_config) : pin_config :=
  {| tck_gpio := tck_gpio p; tms_gpio := tms_gpio p; tdi_gpio := tdi_gpio p;
     tdo_gpio := v; trst_gpio := trst_gpio p; srst_gpio := srst_gpio p;
     blink_gpio := blink_gpio p; swdio_gpio := swdio_gpio p;
     swclk_gpio := swclk_gpio p |}.

Definition set_trst_gpio (v : Z) (p : pin_config) : pin_config :=
  {| tck_gpio := tck_gpio p; tms_gpio := tms_gpio p; tdi_gpio := tdi_gpio p;
     tdo_gpio := tdo_gpio p; trst_gpio := v; srst_gpio := srst_gpio p;
     blink_gpio := blink_gpio p; swdio_gpio := swdio_gpio p;
     swclk_gpio := swclk_gpio p |}.

Definition set_srst_gpio (v : Z) (p : pin_config) : pin_config :=
  {| tck_gpio := tck_gpio p; tms_gpio := tms_gpio p; tdi_gpio := tdi_gpio p;
     tdo_gpio := tdo_gpio p; trst_gpio := trst_gpio p; srst_gpio := v;
     blink_gpio := blink_gpio p; swdio_gpio := swdio_gpio p;
     swclk_gpio := swclk_gpio p |}.

Definition set_blink_gpio (v : Z) (p : pin_config) : pin_config :=
  {| tck_gpio := tck_gpio p; tms_gpio := tms_gpio p; tdi_gpio := tdi_gpio p;
     tdo_gpio := tdo_gpio p; trst_gpio := trst_gpio p; srst_gpio := srst_gpio p;
     blink_gpio := v; swdio_gpio := swdio_gpio p;
     swclk_gpio := swclk_gpio p |}.

Definition set_swdio_gpio (v : Z) (p : pin_config) : pin_config :=
  {| tck_gpio := tck_gpio p; tms_gpio := tms_gpio p; tdi_gpio := tdi_gpio p;
     tdo_gpio := tdo_gpio p; trst_gpio := trst_gpio p; srst_gpio := srst_gpio p;
     blink_gpio := blink_gpio p; swdio_gpio := v;
     swclk_gpio := swclk_gpio p |}.

Definition set_swclk_gpio (v : Z) (p : pin_config) : pin_config :=
  {| tck_gpio := tck_gpio p; tms_gpio := tms_gpio p; tdi_gpio := tdi_gpio p;
     tdo_gpio := tdo_gpio p; trst_gpio := trst_gpio p; srst_gpio := srst_gpio p;
     blink_gpio := blink_gpio p; swdio_gpio := swdio_gpio p;
     swclk_gpio := v |}.

Definition with_pins (f : pin_config -> pin_config) (s : driver_state) : driver_state :=
  {| pins := f (pins s); jtag_delay := jtag_delay s;
     s_jtag_speed_khz := s_jtag_speed_khz s;
     gpio_in_bundle := gpio_in_bundle s; gpio_out_bundle := gpio_out_bundle s;
     esp_gpio_bitbang_blink := esp_gpio_bitbang_blink s;
     bitbang_interface := bitbang_interface s;
     dedic_out := dedic_out s; dedic_in := dedic_in s; gpio_in := gpio_in s;
     hw_calls := hw_calls s; log := log s; cmd_out := cmd_out s |}.

Definition with_s_jtag_speed_khz (v : Z) (s : driver_state) : driver_state :=
  {| pins := pins s; jtag_delay := jtag_delay s;
     s_jtag_speed_khz := v;
     gpio_in_bundle := gpio_in_bundle s; gpio_out_bundle := gpio_out_bundle s;
     esp_gpio_bitbang_blink := esp_gpio_bitbang_blink s;
     bitbang_interface := bitbang_interface s;
     dedic_out := dedic_out s; dedic_in := dedic_in s; gpio_in := gpio_in s;
     hw_calls := hw_calls s; log := log s; cmd_out := cmd_out s |}.

Definition with_gpio_in_bundle (v : option dedic_gpio_bundle_config_t)
    (s : driver_state) : driver_state :=
  {| pins := pins s; jtag_delay := jtag_delay s;
     s_jtag_speed_khz := s_jtag_speed_khz s;
     gpio_in_bundle := v; gpio_out_bundle := gpio_out_bundle s;
     esp_gpio_bitbang_blink := esp_gpio_bitbang_blink s;
     bitbang_interface := bitbang_interface s;
     dedic_out := dedic_out s; dedic_in := dedic_in s; gpio_in := gpio_in s;
     hw_calls := hw_calls s; log := log s; cmd_out := cmd_out s |}.

Definition with_gpio_out_bundle (v : option dedic_gpio_bundle_config_t)
    (s : driver_state) : driver_state :=
  {| pins := pins s; jtag_delay := jtag_delay s;
     s_jtag_speed_khz := s_jtag_speed_khz s;
     gpio_in_bundle := gpio_in_bundle s; gpio_out_bundle := v;
     esp_gpio_bitbang_blink := esp_gpio_bitbang_blink s;
     bitbang_interface := bitbang_interface s;
     dedic_out := dedic_out s; dedic_in := dedic_in s; gpio_in := gpio_in s;
     hw_calls := hw_calls s; log := log s; cmd_out := cmd_out s |}.

Definition with_esp_gpio_bitbang_blink (v : option blink_fn)
    (s : driver_state) : driver_state :=
  {| pins := pins s; jtag_delay := jtag_delay s;
     s_jtag_speed_khz := s_jtag_speed_khz s;
     gpio_in_bundle := gpio_in_bundle s; gpio_out_bundle := gpio_out_bundle s;
     esp_gpio_bitbang_blink := v;
     bitbang_interface := bitbang_interface s;
     dedic_out := dedic_out s; dedic_in := dedic_in s; gpio_in := gpio_in s;
     hw_calls := hw_calls s; log := log s; cmd_out := cmd_out s |}.

Definition with_bitbang_interface (v : option bitbang_ref)
    (s : driver_state) : driver_state :=
  {| pins := pins s; jtag_delay := jtag_delay s;
     s_jtag_speed_khz := s_jtag_speed_khz s;
     gpio_in_bundle := gpio_in_bundle s; gpio_out_bundle := gpio_out_bundle s;
     esp_gpio_bitbang_blink := esp_gpio_bitbang_blink s;
     bitbang_interface := v;
     dedic_out := dedic_out s; dedic_in := dedic_in s; gpio_in := gpio_in s;
     hw_calls := hw_calls s; log := log s; cmd_out := cmd_out s |}.

Definition with_dedic_out (v : Z) (s : driver_state) : driver_state :=
  {| pins := pins s; jtag_delay := jtag_delay s;
     s_jtag_speed_khz := s_jtag_speed_khz s;
     gpio_in_bundle := gpio_in_bundle s; gpio_out_bundle := gpio_out_bundle s;
     esp_gpio_bitbang_blink := esp_gpio_bitbang_blink s;
     bitbang_interface := bitbang_interface s;
     dedic_out := v; dedic_in := dedic_in s; gpio_in := gpio_in s;
     hw_calls := hw_calls s; log := log s; cmd_out := cmd_out s |}.

Definition with_hw_calls (v : list hw_call) (s : driver_state) : driver_state :=
  {| pins := pins s; jtag_delay := jtag_delay s;
     s_jtag_speed_khz := s_jtag_speed_khz s;
     gpio_in_bundle := gpio_in_bundle s; gpio_out_bundle := gpio_out_bundle s;
     esp_gpio_bitbang_blink := esp_gpio_bitbang_blink s;
     bitbang_interface := bitbang_interface s;
     dedic_out := dedic_out s; dedic_in := dedic_in s; gpio_in := gpio_in s;
     hw_calls := v; log := log s; cmd_out := cmd_out s |}.

Definition with_log (v : list (log_level * string)) (s : driver_state) : driver_state :=
  {| pins := pins s; jtag_delay := jtag_delay s;
     s_jtag_speed_khz := s_jtag_speed_khz s;
     gpio_in_bundle := gpio_in_bundle s; gpio_out_bundle := gpio_out_bundle s;
     esp_gpio_bitbang_blink := esp_gpio_bitbang_blink s;
     bitbang_interface := bitbang_interface s;
     dedic_out := dedic_out s; dedic_in := dedic_in s; gpio_in := gpio_in s;
     hw_calls := hw_calls s; log := v; cmd_out := cmd_out s |}.

Definition with_cmd_out (v : list (string * list Z)) (s : driver_state) : driver_state :=
  {| pins := pins s; jtag_delay := jtag_delay s;
     s_jtag_speed_khz := s_jtag_speed_khz s;
     gpio_in_bundle := gpio_in_bundle s; gpio_out_bundle := gpio_out_bundle s;
     esp_gpio_bitbang_blink := esp_gpio_bitbang_blink s;
     bitbang_interface := bitbang_interface s;
     dedic_out := dedic_out s; dedic_in := dedic_in s; gpio_in := gpio_in s;
     hw_calls := hw_calls s; log := log s; cmd_out := v |}.

(** ** C function bodies as computations *)

(** A statement either falls through to the next one with a value, or
    leaves the function with [return code;]. *)
Inductive outcome (A : Type) :=
  | Next (a : A)
  | Return (code : Z).
Arguments Next {A} a.
Arguments Return {A} code.

Definition M (A : Type) : Type := driver_state -> outcome A * driver_state.

Definition ret {A : Type} (a : A) : M A := fun s => (Next a, s).

Definition bind {A B : Type} (m : M A) (k : A -> M B) : M B :=
  fun s =>
    match m s with
    | (Next a, s') => k a s'
    | (Return code, s') => (Return code, s')
    end.

Definition return_ {A : Type} (code : Z) : M A := fun s => (Return code, s).

Definition gets {A : Type} (f : driver_state -> A) : M A := fun s => (Next (f s), s).

Definition modify (f : driver_state -> driver_state) : M unit :=
  fun s => (Next tt, f s).

Declare Scope drv_scope.
Delimit Scope drv_scope with drv.
Notation "x <- c1 ;; c2" := (bind c1 (fun x => c2))
  (at level 61, c1 at next level, right associativity) : drv_scope.
Notation "c1 ;; c2" := (bind c1 (fun _ => c2))
  (at level 61, right associativity) : drv_scope.

(** Calling a function whose body is [body]: the value it returned, whether
    at the end or early, and the state it left. *)
Definition call (body : M Z) (s : driver_state) : Z * driver_state :=
  match body s with
  | (Next code, s') => (code, s')
  | (Return code, s') => (code, s')
  end.

Definition call_void (body : M unit) (s : driver_state) : driver_state :=
  snd (body s).

(** A callee that is itself written as a function of the state. *)
Definition lift {A : Type} (f : driver_state -> A * driver_state) : M A :=
  fun s => let (a, s') := f s in (Next a, s').

Local Open Scope drv_scope.

(** ** The platform, as far as the driver sees it *)

Definition emit (c : hw_call) : M unit :=
  modify (fun s => with_hw_calls (hw_calls s ++ [c]) s).

Definition gpio_set_direction (g : Z) (mode : gpio_mode_t) : M unit :=
  emit (Call_gpio_set_direction g mode).

Definition gpio_set_level (g : Z) (level : Z) : M unit :=
  emit (Call_gpio_set_level g level).

Definition gpio_ll_set_level (g : Z) (level : Z) : M unit :=
  emit (Call_gpio_ll_set_level g level).

Definition gpio_ll_get_level (g : Z) : M Z :=
  gets (fun s => gpio_in s g).

(** The masked write of the dedicated-GPIO output word: the bits selected by
    [mask] take the bits of [value], all at once; the others keep theirs. *)
Definition masked_update (old mask value : Z) : Z :=
  Z.lor (Z.land old (Z.lnot mask)) (Z.land value mask).

Definition dedic_gpio_cpu_ll_write_mask (mask value : Z) : M unit :=
  emit (Call_dedic_gpio_cpu_ll_write_mask mask value) ;;
  modify (fun s => with_dedic_out (masked_update (dedic_out s) mask value) s).

Definition dedic_gpio_cpu_ll_read_in : M Z := gets dedic_in.

(** [dedic_gpio_new_bundle(&config, &handle)]; [store] writes the handle.
    The driver does not look at the call's result, and neither does this
    embedding: the request is recorded and the handle stands for it. *)
Definition dedic_gpio_new_bundle (config : dedic_gpio_bundle_config_t)
    (store : option dedic_gpio_bundle_config_t -> driver_state -> driver_state)
    : M unit :=
  emit (Call_dedic_gpio_new_bundle config) ;;
  modify (store (Some config)).

Definition LOG (lvl : log_level) (msg : string) : M unit :=
  modify (fun s => with_log (log s ++ [(lvl, msg)]) s).

Definition command_print (fmt : string) (args : list Z) : M unit :=
  modify (fun s => with_cmd_out (cmd_out s ++ [(fmt, args)]) s).

(** [a[i] = v] on a local array. *)
Fixpoint array_set (a : list Z) (i : nat) (v : Z) : list Z :=
  match a, i with
  | [], _ => []
  | _ :: a', O => v :: a'
  | x :: a', S i' => x :: array_set a' i' v
  end.

(** ** esp_gpio.c *)

(* GPIO setup functions *)
Definition gpio_mode_input_set (g : Z) : M unit :=
  gpio_set_direction g GPIO_MODE_INPUT.

Definition gpio_mode_output_set (g : Z) : M unit :=
  gpio_set_direction g GPIO_MODE_OUTPUT.

Definition gpio_mode_input_output_set (g : Z) : M unit :=
  gpio_set_direction g GPIO_MODE_INPUT_OUTPUT.

Definition gpio_set (g : Z) : M unit := gpio_set_level g 1.

Definition gpio_clear (g : Z) : M unit := gpio_set_level g 0.

(** [for (unsigned int i = 0; i < jtag_delay; i++) asm volatile ("");] *)
Fixpoint spin (n : nat) : M unit :=
  match n with
  | O => ret tt
  | S n' => ret tt ;; spin n'
  end.

Definition busy_wait : M unit :=
  d <- gets jtag_delay ;;
  spin (Z.to_nat d).

Definition esp_gpio_swdio_drive (is_output : bool) : M unit :=
  swdio <- gets (fun s => swdio_gpio (pins s)) ;;
  if is_output then gpio_mode_output_set swdio
  else gpio_mode_input_set swdio.

Definition esp_gpio_swdio_read : M Z :=
  swdio <- gets (fun s => swdio_gpio (pins s)) ;;
  v <- gpio_ll_get_level swdio ;;
  return_ v.

Definition esp_gpio_swdio_write (swclk swdio : Z) : M Z :=
  p <- gets pins ;;
  gpio_ll_set_level (swclk_gpio p) (if c_true swclk then 1 else 0) ;;
  gpio_ll_set_level (swdio_gpio p) (if c_true swdio then 1 else 0) ;;
  busy_wait ;;
  return_ ESP_OK.

Definition esp_gpio_swdio_blink (on : Z) : M Z :=
  p <- gets pins ;;
  gpio_ll_set_level (blink_gpio p) (if c_true on then 1 else 0) ;;
  return_ ERROR_OK.

Definition esp_gpio_read : M Z :=
  (* we have only one input and it's mask value is 0x01 *)
  v <- dedic_gpio_cpu_ll_read_in ;;
  return_ v.

Definition esp_gpio_write (tck tms tdi : Z) : M Z :=
  dedic_gpio_cpu_ll_write_mask GPIO_TMS_MASK (if c_true tms then GPIO_TMS_MASK else 0) ;;
  dedic_gpio_cpu_ll_write_mask GPIO_TDI_MASK (if c_true tdi then GPIO_TDI_MASK else 0) ;;
  dedic_gpio_cpu_ll_write_mask GPIO_TCK_MASK (if c_true tck then GPIO_TCK_MASK else 0) ;;
  busy_wait ;;
  return_ ERROR_OK.

Definition esp_gpio_blink (on : Z) : M Z :=
  dedic_gpio_cpu_ll_write_mask GPIO_BLINK_MASK (if c_true on then GPIO_BLINK_MASK else 0) ;;
  return_ ERROR_OK.

(* (1) assert or (0) deassert reset lines *)
Definition esp_gpio_reset (trst srst : Z) : M Z :=
  p <- gets pins ;;
  (if negb (trst_gpio p =? GPIO_NUM_NC) then
     dedic_gpio_cpu_ll_write_mask GPIO_TRST_MASK (if c_true trst then GPIO_TRST_MASK else 0)
   else ret tt) ;;
  (if negb (srst_gpio p =? GPIO_NUM_NC) then
     dedic_gpio_cpu_ll_write_mask GPIO_SRST_MASK (if c_true srst then GPIO_SRST_MASK else 0)
   else ret tt) ;;
  return_ ERROR_OK.

(** [esp_gpio_khz(khz, &jtag_speed)]: the second argument is what
    [*jtag_speed] holds at the call; the result is the return code with
    what [*jtag_speed] holds afterwards. *)
Definition esp_gpio_khz (khz : Z) (jtag_speed : Z) (s : driver_state)
    : (Z * Z) * driver_state :=
  if negb (c_true khz) then
    ((ERROR_FAIL, jtag_speed),
     call_void (LOG LOG_LVL_DEBUG "RCLK not supported") s)
  else
    ((ERROR_OK, 0), with_s_jtag_speed_khz khz s).

(** [esp_gpio_speed_div(speed, &khz)], with [*khz] handled the same way. *)
Definition esp_gpio_speed_div (speed : Z) (khz : Z) (s : driver_state)
    : (Z * Z) * driver_state :=
  ((ERROR_OK, s_jtag_speed_khz s), s).

Definition esp_gpio_speed (speed : Z) : M Z :=
  (* jtag_delay = speed; *)
  return_ ERROR_OK.

Definition esp_gpio_quit : M Z :=
  return_ ERROR_OK.

Section Driver.

Context {soc : Soc} {helper : CommandHelper}.

(** [COMMAND_PARSE_NUMBER(int, in, out)] of helper/command.h, [out] being
    one of the pin statics: on a parse error the command prints a message
    and returns the parser's error code, with [out] not written. *)
Definition COMMAND_PARSE_NUMBER_int (in_ : string) (out_name : string)
    (out : Z -> pin_config -> pin_config) : M unit :=
  match parse_int in_ with
  | ParseOk n => modify (with_pins (out n))
  | ParseErr code =>
      command_print (out_name ++ " option value ('" ++ in_ ++ "') is not valid")%string [] ;;
      return_ code
  end.

Definition ARGV (CMD_ARGV : list string) (i : nat) : string :=
  nth i CMD_ARGV "".

Definition esp_gpio_handle_jtag_gpionums (CMD_ARGV : list string) : M Z :=
  let CMD_ARGC := List.length CMD_ARGV in
  (if Nat.eqb CMD_ARGC 4 then
     COMMAND_PARSE_NUMBER_int (ARGV CMD_ARGV 0) "tck_gpio" set_tck_gpio ;;
     COMMAND_PARSE_NUMBER_int (ARGV CMD_ARGV 1) "tms_gpio" set_tms_gpio ;;
     COMMAND_PARSE_NUMBER_int (ARGV CMD_ARGV 2) "tdi_gpio" set_tdi_gpio ;;
     COMMAND_PARSE_NUMBER_int (ARGV CMD_ARGV 3) "tdo_gpio" set_tdo_gpio
   else if negb (Nat.eqb CMD_ARGC 0) then
     return_ ERROR_COMMAND_SYNTAX_ERROR
   else ret tt) ;;
  p <- gets pins ;;
  command_print "esp_gpio GPIO config: tck = %d, tms = %d, tdi = %d, tdo = %d"
    [tck_gpio p; tms_gpio p; tdi_gpio p; tdo_gpio p] ;;
  return_ ERROR_OK.

Definition esp_gpio_handle_jtag_gpionum_tck (CMD_ARGV : list string) : M Z :=
  let CMD_ARGC := List.length CMD_ARGV in
  (if Nat.eqb CMD_ARGC 1 then
     COMMAND_PARSE_NUMBER_int (ARGV CMD_ARGV 0) "tck_gpio" set_tck_gpio
   else ret tt) ;;
  p <- gets pins ;;
  command_print "esp_gpio GPIO config: tck = %d" [tck_gpio p] ;;
  return_ ERROR_OK.

Definition esp_gpio_handle_jtag_gpionum_tms (CMD_ARGV : list string) : M Z :=
  let CMD_ARGC := List.length CMD_ARGV in
  (if Nat.eqb CMD_ARGC 1 then
     COMMAND_PARSE_NUMBER_int (ARGV CMD_ARGV 0) "tms_gpio" set_tms_gpio
   else ret tt) ;;
  p <- gets pins ;;
  command_print "esp_gpio GPIO config: tms = %d" [tms_gpio p] ;;
  return_ ERROR_OK.

Definition esp_gpio_handle_jtag_gpionum_tdo (CMD_ARGV : list string) : M Z :=
  let CMD_ARGC := List.length CMD_ARGV in
  (if Nat.eqb CMD_ARGC 1 then
     COMMAND_PARSE_NUMBER_int (ARGV CMD_ARGV 0) "tdo_gpio" set_tdo_gpio
   else ret tt) ;;
  p <- gets pins ;;
  command_print "esp_gpio GPIO config: tdo = %d" [tdo_gpio p] ;;
  return_ ERROR_OK.

Definition esp_gpio_handle_jtag_gpionum_tdi (CMD_ARGV : list string) : M Z :=
  let CMD_ARGC := List.length CMD_ARGV in
  (if Nat.eqb CMD_ARGC 1 then
     COMMAND_PARSE_NUMBER_int (ARGV CMD_ARGV 0) "tdi_gpio" set_tdi_gpio
   else ret tt) ;;
  p <- gets pins ;;
  command_print "esp_gpio GPIO config: tdi = %d" [tdi_gpio p] ;;
  return_ ERROR_OK.

Definition esp_gpio_handle_jtag_gpionum_srst (CMD_ARGV : list string) : M Z :=
  let CMD_ARGC := List.length CMD_ARGV in
  (if Nat.eqb CMD_ARGC 1 then
     COMMAND_PARSE_NUMBER_int (ARGV CMD_ARGV 0) "srst_gpio" set_srst_gpio
   else ret tt) ;;
  p <- gets pins ;;
  command_print "esp_gpio GPIO config: srst = %d" [srst_gpio p] ;;
  return_ ERROR_OK.

Definition esp_gpio_handle_jtag_gpionum_trst (CMD_ARGV : list string) : M Z :=
  let CMD_ARGC := List.length CMD_ARGV in
  (if Nat.eqb CMD_ARGC 1 then
     COMMAND_PARSE_NUMBER_int (ARGV CMD_ARGV 0) "trst_gpio" set_trst_gpio
   else ret tt) ;;
  p <- gets pins ;;
  command_print "esp_gpio GPIO config: trst = %d" [trst_gpio p] ;;
  return_ ERROR_OK.

Definition esp_gpio_handle_jtag_gpionum_blink (CMD_ARGV : list string) : M Z :=
  let CMD_ARGC := List.length CMD_ARGV in
  (if Nat.eqb CMD_ARGC 1 then
     COMMAND_PARSE_NUMBER_int (ARGV CMD_ARGV 0) "blink_gpio" set_blink_gpio
   else ret tt) ;;
  p <- gets pins ;;
  command_print "esp_gpio GPIO config: blink = %d" [blink_gpio p] ;;
  return_ ERROR_OK.

Definition esp_gpio_handle_swd_gpionums (CMD_ARGV : list string) : M Z :=
  let CMD_ARGC := List.length CMD_ARGV in
  (if Nat.eqb CMD_ARGC 2 then
     COMMAND_PARSE_NUMBER_int (ARGV CMD_ARGV 0) "swclk_gpio" set_swclk_gpio ;;
     COMMAND_PARSE_NUMBER_int (ARGV CMD_ARGV 1) "swdio_gpio" set_swdio_gpio
   else if negb (Nat.eqb CMD_ARGC 0) then
     return_ ERROR_COMMAND_SYNTAX_ERROR
   else ret tt) ;;
  p <- gets pins ;;
  command_print "esp_gpio GPIO nums: swclk = %d, swdio = %d"
    [swclk_gpio p; swdio_gpio p] ;;
  return_ ERROR_OK.

Definition esp_gpio_handle_swd_gpionum_swclk (CMD_ARGV : list string) : M Z :=
  let CMD_ARGC := List.length CMD_ARGV in
  (if Nat.eqb CMD_ARGC 1 then
     COMMAND_PARSE_NUMBER_int (ARGV CMD_ARGV 0) "swclk_gpio" set_swclk_gpio
   else ret tt) ;;
  p <- gets pins ;;
  command_print "esp_gpio num: swclk = %d" [swclk_gpio p] ;;
  return_ ERROR_OK.

Definition esp_gpio_handle_swd_gpionum_swdio (CMD_ARGV : list string) : M Z :=
  let CMD_ARGC := List.length CMD_ARGV in
  (if Nat.eqb CMD_ARGC 1 then
     COMMAND_PARSE_NUMBER_int (ARGV CMD_ARGV 0) "swdio_gpio" set_swdio_gpio
   else ret tt) ;;
  p <- gets pins ;;
  command_print "esp_gpio num: swdio = %d" [swdio_gpio p] ;;
  return_ ERROR_OK.

(** The registered commands, by the handler each one runs. *)
Inductive command :=
  | esp_gpio_jtag_nums
  | esp_gpio_tck_num
  | esp_gpio_tms_num
  | esp_gpio_tdo_num
  | esp_gpio_tdi_num
  | esp_gpio_srst_num
  | esp_gpio_trst_num
  | esp_gpio_blink_num
  | esp_gpio_swd_nums
  | esp_gpio_swclk_num
  | esp_gpio_swdio_num.

Definition esp_gpio_command_handlers (c : command) : list string -> M Z :=
  match c with
  | esp_gpio_jtag_nums => esp_gpio_handle_jtag_gpionums
  | esp_gpio_tck_num => esp_gpio_handle_jtag_gpionum_tck
  | esp_gpio_tms_num => esp_gpio_handle_jtag_gpionum_tms
  | esp_gpio_tdo_num => esp_gpio_handle_jtag_gpionum_tdo
  | esp_gpio_tdi_num => esp_gpio_handle_jtag_gpionum_tdi
  | esp_gpio_srst_num => esp_gpio_handle_jtag_gpionum_srst
  | esp_gpio_trst_num => esp_gpio_handle_jtag_gpionum_trst
  | esp_gpio_blink_num => esp_gpio_handle_jtag_gpionum_blink
  | esp_gpio_swd_nums => esp_gpio_handle_swd_gpionums
  | esp_gpio_swclk_num => esp_gpio_handle_swd_gpionum_swclk
  | esp_gpio_swdio_num => esp_gpio_handle_swd_gpionum_swdio
  end.

(** The number of arguments a command's usage string names. *)
Definition expected_argc (c : command) : nat :=
  match c with
  | esp_gpio_jtag_nums => 4
  | esp_gpio_swd_nums => 2
  | _ => 1
  end.

Definition is_group_command (c : command) : bool :=
  match c with
  | esp_gpio_jtag_nums | esp_gpio_swd_nums => true
  | _ => false
  end.

Definition esp_gpio_jtag_mode_possible (s : driver_state) : bool :=
  if negb (GPIO_IS_VALID_OUTPUT_GPIO (tck_gpio (pins s))) then false
  else if negb (GPIO_IS_VALID_OUTPUT_GPIO (tms_gpio (pins s))) then false
  else if negb (GPIO_IS_VALID_GPIO (tdi_gpio (pins s))) then false
  else if negb (GPIO_IS_VALID_OUTPUT_GPIO (tdo_gpio (pins s))) then false
  else true.

Definition esp_gpio_swd_mode_possible (s : driver_state) : bool :=
  if negb (GPIO_IS_VALID_GPIO (swclk_gpio (pins s))) then false
  else if negb (GPIO_IS_VALID_GPIO (swdio_gpio (pins s))) then false
  else true.

Definition esp_gpio_init (t : transport_queries) : M Z :=
  LOG LOG_LVL_INFO "esp_gpio GPIO JTAG/SWD bitbang driver" ;;
  let khz := 5000 in
  let jtag_speed := 0 in
  lift (esp_gpio_khz khz jtag_speed) ;;
  (*
   * Configure TDO as an input, and TDI, TCK, TMS, TRST, SRST
   * as outputs.  Drive TDI and TCK low, and TMS/TRST/SRST high.
   *)
  (if transport_is_jtag t then
     p <- gets pins ;;
     possible <- gets esp_gpio_jtag_mode_possible ;;
     (if possible then
        gpio_clear (tdi_gpio p) ;;
        gpio_clear (tck_gpio p) ;;
        gpio_set (tms_gpio p) ;;
        gpio_mode_input_set (tdo_gpio p) ;;
        gpio_mode_output_set (tdi_gpio p) ;;
        gpio_mode_output_set (tck_gpio p) ;;
        gpio_mode_output_set (tms_gpio p)
      else
        LOG LOG_LVL_ERROR "some JTAG pins are not set" ;;
        return_ ERROR_FAIL) ;;
     let bundle_out_gpios := [tck_gpio p; tdi_gpio p; tms_gpio p; 0; 0; 0] in
     let bundle_in_gpios := [tdo_gpio p] in
     bundle_out_gpios <-
       (if negb (trst_gpio p =? GPIO_NUM_NC) then
          gpio_set (trst_gpio p) ;;
          gpio_mode_output_set (trst_gpio p) ;;
          ret (array_set bundle_out_gpios 3 (trst_gpio p))
        else ret bundle_out_gpios) ;;
     bundle_out_gpios <-
       (if negb (srst_gpio p =? GPIO_NUM_NC) then
          gpio_set (srst_gpio p) ;;
          gpio_mode_output_set (srst_gpio p) ;;
          ret (array_set bundle_out_gpios 4 (srst_gpio p))
        else ret bundle_out_gpios) ;;
     bundle_out_gpios <-
       (if negb (blink_gpio p =? GPIO_NUM_NC) then
          gpio_clear (blink_gpio p) ;;
          gpio_mode_output_set (blink_gpio p) ;;
          modify (with_esp_gpio_bitbang_blink (Some fn_esp_gpio_blink)) ;;
          ret (array_set bundle_out_gpios 5 (blink_gpio p))
        else ret bundle_out_gpios) ;;
     let out_bundle_config :=
       {| gpio_array := bundle_out_gpios;
          array_size := List.length bundle_out_gpios;
          flags_in_en := false;
          flags_out_en := true |} in
     let in_bundle_config :=
       {| gpio_array := bundle_in_gpios;
          array_size := List.length bundle_in_gpios;
          flags_in_en := true;
          flags_out_en := false |} in
     dedic_gpio_new_bundle out_bundle_config with_gpio_out_bundle ;;
     dedic_gpio_new_bundle in_bundle_config with_gpio_in_bundle
   else ret tt) ;;
  (if transport_is_swd t then
     p <- gets pins ;;
     possible <- gets esp_gpio_swd_mode_possible ;;
     (if possible then
        gpio_clear (swdio_gpio p) ;;
        gpio_clear (swclk_gpio p) ;;
        gpio_mode_output_set (swdio_gpio p) ;;
        gpio_mode_output_set (swclk_gpio p) ;;
        (if negb (blink_gpio p =? GPIO_NUM_NC) then
           gpio_clear (blink_gpio p) ;;
           gpio_mode_output_set (blink_gpio p) ;;
           modify (with_esp_gpio_bitbang_blink (Some fn_esp_gpio_swdio_blink))
         else ret tt)
      else
        LOG LOG_LVL_ERROR "some SWD pins are not set" ;;
        return_ ERROR_FAIL)
   else ret tt) ;;
  modify (with_bitbang_interface (Some ref_esp_gpio_bitbang)) ;;
  return_ ERROR_OK.

(** The entry points the adapter framework and the bit-bang engine may call
    once the driver is initialised, other than [esp_gpio_khz] and
    [esp_gpio_init]. *)
Inductive driver_op :=
  | Op_read
  | Op_write (tck tms tdi : Z)
  | Op_reset (trst srst : Z)
  | Op_blink (on : Z)
  | Op_swdio_drive (is_output : bool)
  | Op_swdio_read
  | Op_swdio_write (swclk swdio : Z)
  | Op_swdio_blink (on : Z)
  | Op_speed (speed : Z)
  | Op_speed_div (speed khz : Z)
  | Op_quit
  | Op_command (c : command) (CMD_ARGV : list string).

Definition run_op (o : driver_op) (s : driver_state) : driver_state :=
  match o with
  | Op_read => snd (call esp_gpio_read s)
  | Op_write tck tms tdi => snd (call (esp_gpio_write tck tms tdi) s)
  | Op_reset trst srst => snd (call (esp_gpio_reset trst srst) s)
  | Op_blink on => snd (call (esp_gpio_blink on) s)
  | Op_swdio_drive is_output => call_void (esp_gpio_swdio_drive is_output) s
  | Op_swdio_read => snd (call esp_gpio_swdio_read s)
  | Op_swdio_write swclk swdio => snd (call (esp_gpio_swdio_write swclk swdio) s)
  | Op_swdio_blink on => snd (call (esp_gpio_swdio_blink on) s)
  | Op_speed speed => snd (call (esp_gpio_speed speed) s)
  | Op_speed_div speed khz => snd (esp_gpio_speed_div speed khz s)
  | Op_quit => snd (call esp_gpio_quit s)
  | Op_command c CMD_ARGV => snd (call (esp_gpio_command_handlers c CMD_ARGV) s)
  end.

Definition run_ops (ops : list driver_op) (s : driver_state) : driver_state :=
  fold_left (fun s' o => run_op o s') ops s.

End Driver.

(** ** Observations *)

(** Whether the bit a mask names is set in a bundle word. *)
Definition bundle_bit (w mask : Z) : bool := negb (Z.land w mask =? 0).

(** The platform calls made between state [s] and a later state [s']. *)
Definition calls_since (s s' : driver_state) : list hw_call :=
  skipn (List.length (hw_calls s)) (hw_calls s').

(** The nominal speed a speed query reports: what [esp_gpio_speed_div]
    stores through its [khz] argument. *)
Definition speed_query (s : driver_state) : Z :=
  snd (fst (esp_gpio_speed_div 0 0 s)).

(** Nothing of the driver's own statics and nothing on the platform side
    differs between the two states; diagnostics may. *)
Definition same_driver_and_platform (s s' : driver_state) : Prop :=
  pins s' = pins s /\
  jtag_delay s' = jtag_delay s /\
  s_jtag_speed_khz s' = s_jtag_speed_khz s /\
  gpio_in_bundle s' = gpio_in_bundle s /\
  gpio_out_bundle s' = gpio_out_bundle s /\
  esp_gpio_bitbang_blink s' = esp_gpio_bitbang_blink s /\
  bitbang_interface s' = bitbang_interface s /\
  dedic_out s' = dedic_out s /\
  hw_calls s' = hw_calls s.

(** Between the two states no pin was reassigned, no bundle allocated, no
    callback or interface installed, and the platform was not called. *)
Definition nothing_set_up (s s' : driver_state) : Prop :=
  pins s' = pins s /\
  gpio_in_bundle s' = gpio_in_bundle s /\
  gpio_out_bundle s' = gpio_out_bundle s /\
  esp_gpio_bitbang_blink s' = esp_gpio_bitbang_blink s /\
  bitbang_interface s' = bitbang_interface s /\
  dedic_out s' = dedic_out s /\
  hw_calls s' = hw_calls s.

(** The masks of the three JTAG signals and of the two reset lines. *)
Definition GPIO_JTAG_SIGNAL_MASKS : Z :=
  Z.lor GPIO_TCK_MASK (Z.lor GPIO_TDI_MASK GPIO_TMS_MASK).

Definition GPIO_RESET_MASKS : Z := Z.lor GPIO_TRST_MASK GPIO_SRST_MASK.

(** A write that reaches the output bundle as one platform call. *)
Definition single_bundle_write (s s' : driver_state) : Prop :=
  exists mask value,
    calls_since s s' = [Call_dedic_gpio_cpu_ll_write_mask mask value].

(** ** What initialisation is to do on each path

    The platform calls of the JTAG path and of the SWD path, as the
    description of the lifecycle (Validated to Active) lists them: initial
    levels and directions of the required pins, the optional reset and
    indicator pins when assigned, and, on the JTAG path only, the two
    bundles. *)

Definition optional_pin_calls (g level : Z) : list hw_call :=
  if g =? GPIO_NUM_NC then []
  else [Call_gpio_set_level g level; Call_gpio_set_direction g GPIO_MODE_OUTPUT].

(** The pin number an output-bundle slot gets for an optional signal. *)
Definition bundle_slot (g : Z) : Z := if g =? GPIO_NUM_NC then 0 else g.

Definition out_bundle_of (p : pin_config) : dedic_gpio_bundle_config_t :=
  {| gpio_array := [tck_gpio p; tdi_gpio p; tms_gpio p; bundle_slot (trst_gpio p);
                    bundle_slot (srst_gpio p); bundle_slot (blink_gpio p)];
     array_size := 6;
     flags_in_en := false;
     flags_out_en := true |}.

Definition in_bundle_of (p : pin_config) : dedic_gpio_bundle_config_t :=
  {| gpio_array := [tdo_gpio p];
     array_size := 1;
     flags_in_en := true;
     flags_out_en := false |}.

Definition jtag_path_calls (p : pin_config) : list hw_call :=
  [Call_gpio_set_level (tdi_gpio p) 0;
   Call_gpio_set_level (tck_gpio p) 0;
   Call_gpio_set_level (tms_gpio p) 1;
   Call_gpio_set_direction (tdo_gpio p) GPIO_MODE_INPUT;
   Call_gpio_set_direction (tdi_gpio p) GPIO_MODE_OUTPUT;
   Call_gpio_set_direction (tck_gpio p) GPIO_MODE_OUTPUT;
   Call_gpio_set_direction (tms_gpio p) GPIO_MODE_OUTPUT] ++
  optional_pin_calls (trst_gpio p) 1 ++
  optional_pin_calls (srst_gpio p) 1 ++
  optional_pin_calls (blink_gpio p) 0 ++
  [Call_dedic_gpio_new_bundle (out_bundle_of p);
   Call_dedic_gpio_new_bundle (in_bundle_of p)].

Definition swd_path_calls (p : pin_config) : list hw_call :=
  [Call_gpio_set_level (swdio_gpio p) 0;
   Call_gpio_set_level (swclk_gpio p) 0;
   Call_gpio_set_direction (swdio_gpio p) GPIO_MODE_OUTPUT;
   Call_gpio_set_direction (swclk_gpio p) GPIO_MODE_OUTPUT] ++
  optional_pin_calls (blink_gpio p) 0.

(** The output-bundle pin list with every signal's own pin number in its
    slot, an unassigned signal showing as not connected. *)
Definition out_bundle_pins_with_absent (p : pin_config) : list Z :=
  [tck_gpio p; tdi_gpio p; tms_gpio p; trst_gpio p; srst_gpio p; blink_gpio p].

(** ** A platform and a parser to run examples on *)

(** GPIO0..21 and GPIO26..46 exist; GPIO46 is input-only. *)
Definition example_valid_gpio (g : Z) : bool :=
  ((0 <=? g) && (g <=? 21)) || ((26 <=? g) && (g <=? 46)).

Definition example_valid_output_gpio (g : Z) : bool :=
  example_valid_gpio g && negb (g =? 46).

Definition example_soc : Soc :=
  {| GPIO_IS_VALID_GPIO := example_valid_gpio;
     GPIO_IS_VALID_OUTPUT_GPIO := example_valid_output_gpio |}.

(** Unsigned decimal numerals; anything else is refused with
    [ERROR_COMMAND_ARGUMENT_INVALID]. *)
Fixpoint decimal_value (acc : Z) (digits : string) : option Z :=
  match digits with
  | EmptyString => Some acc
  | String c rest =>
      let d := Z.of_nat (Ascii.nat_of_ascii c) - 48 in
      if (0 <=? d) && (d <=? 9) then decimal_value (10 * acc + d) rest else None
  end.

Definition example_parse_int (str : string) : parse_result :=
  match str with
  | EmptyString => ParseErr (-603)
  | _ => match decimal_value 0 str with
         | Some n => ParseOk n
         | None => ParseErr (-603)
         end
  end.

Definition example_helper : CommandHelper :=
  {| parse_int := example_parse_int |}.

(** The state after the configuration line [esp_gpio_jtag_nums 4 5 6 7]. *)
Definition jtag_pins_4_5_6_7 : driver_state :=
  snd (call (@esp_gpio_handle_jtag_gpionums example_helper ["4"; "5"; "6"; "7"])
         startup_state).

(** The state after the configuration line [esp_gpio_swd_nums 10 11]. *)
Definition swd_pins_10_11 : driver_state :=
  snd (call (@esp_gpio_handle_swd_gpionums example_helper ["10"; "11"])
         startup_state).

(** Pins 4 5 6 7 for JTAG together with pins 10 11 for SWD. *)
Definition jtag_and_swd_pins : driver_state :=
  with_pins (set_swdio_gpio 11) (with_pins (set_swclk_gpio 10) jtag_pins_4_5_6_7).

(** ** Frame conditions on computations *)

(** [m] leaves the observation [f] of the state as it found it. *)
Definition keeps {A B : Type} (f : driver_state -> B) (m : M A) : Prop :=
  forall s, f (snd (m s)) = f s.

(** ** The course of [esp_gpio_init]

    Which of its two blocks [esp_gpio_init] enters, and with what outcome,
    given the answers of the transport queries and the pins at the call. *)

Section InitCourse.

Context {soc : Soc}.

Definition jtag_block_fails (t : transport_queries) (s : driver_state) : bool :=
  transport_is_jtag t && negb (esp_gpio_jtag_mode_possible s).

Definition jtag_block_sets_up (t : transport_queries) (s : driver_state) : bool :=
  transport_is_jtag t && esp_gpio_jtag_mode_possible s.

Definition swd_block_fails (t : transport_queries) (s : driver_state) : bool :=
  negb (jtag_block_fails t s) && transport_is_swd t &&
  negb (esp_gpio_swd_mode_possible s).

Definition swd_block_sets_up (t : transport_queries) (s : driver_state) : bool :=
  negb (jtag_block_fails t s) && transport_is_swd t &&
  esp_gpio_swd_mode_possible s.

(** The validation [esp_gpio_init] applies to the session's transport. *)
Definition validation (m : TransportMode) (s : driver_state) : bool :=
  match m with
  | JTAG => esp_gpio_jtag_mode_possible s
  | SWD => esp_gpio_swd_mode_possible s
  end.

End InitCourse.

(** The platform calls since [s] are exactly those of the JTAG path, or
    exactly those of the SWD path, for the pins of [s]. *)
Definition jtag_path_ran (s s' : driver_state) : Prop :=
  calls_since s s' = jtag_path_calls (pins s).

Definition swd_path_ran (s s' : driver_state) : Prop :=
  calls_since s s' = swd_path_calls (pins s).

(** ** Argument counts of the configuration commands *)

Section ArgumentCount.

Context {helper : CommandHelper}.

(** The command, run with [CMD_ARGV] from [s], is refused as a syntax error
    and leaves the nine pin statics alone. *)
Definition refused_as_syntax_error (c : command) (CMD_ARGV : list string)
    (s : driver_state) : Prop :=
  fst (call (esp_gpio_command_handlers c CMD_ARGV) s) = ERROR_COMMAND_SYNTAX_ERROR /\
  pins (snd (call (esp_gpio_command_handlers c CMD_ARGV) s)) = pins s.

(** The line of current values a command prints when it runs to its end. *)
Definition report_line (c : command) (p : pin_config) : string * list Z :=
  match c with
  | esp_gpio_jtag_nums =>
      ("esp_gpio GPIO config: tck = %d, tms = %d, tdi = %d, tdo = %d",
       [tck_gpio p; tms_gpio p; tdi_gpio p; tdo_gpio p])
  | esp_gpio_tck_num => ("esp_gpio GPIO config: tck = %d", [tck_gpio p])
  | esp_gpio_tms_num => ("esp_gpio GPIO config: tms = %d", [tms_gpio p])
  | esp_gpio_tdo_num => ("esp_gpio GPIO config: tdo = %d", [tdo_gpio p])
  | esp_gpio_tdi_num => ("esp_gpio GPIO config: tdi = %d", [tdi_gpio p])
  | esp_gpio_srst_num => ("esp_gpio GPIO config: srst = %d", [srst_gpio p])
  | esp_gpio_trst_num => ("esp_gpio GPIO config: trst = %d", [trst_gpio p])
  | esp_gpio_blink_num => ("esp_gpio GPIO config: blink = %d", [blink_gpio p])
  | esp_gpio_swd_nums =>
      ("esp_gpio GPIO nums: swclk = %d, swdio = %d", [swclk_gpio p; swdio_gpio p])
  | esp_gpio_swclk_num => ("esp_gpio num: swclk = %d", [swclk_gpio p])
  | esp_gpio_swdio_num => ("esp_gpio num: swdio = %d", [swdio_gpio p])
  end.

End ArgumentCount.

(** ** Every entry point of the driver *)

(** A call into the driver from outside: one of the operations of
    [driver_op], a speed setting, or an initialisation under given answers
    of the transport queries. *)
Inductive adapter_call :=
  | Adapter_op (o : driver_op)
  | Adapter_khz (khz jtag_speed : Z)
  | Adapter_init (t : transport_queries).

Definition is_command_call (c : adapter_call) : bool :=
  match c with
  | Adapter_op (Op_command _ _) => true
  | _ => false
  end.

Section AdapterCalls.

Context {soc : Soc} {helper : CommandHelper}.

Definition run_adapter_call (c : adapter_call) (s : driver_state) : driver_state :=
  match c with
  | Adapter_op o => run_op o s
  | Adapter_khz khz jtag_speed => snd (esp_gpio_khz khz jtag_speed s)
  | Adapter_init t => snd (call (esp_gpio_init t) s)
  end.

Definition run_adapter_calls (l : list adapter_call) (s : driver_state)
    : driver_state :=
  fold_left (fun s' c => run_adapter_call c s') l s.

End AdapterCalls.

(** The six output masks together. *)
Definition GPIO_OUTPUT_MASKS : Z :=
  Z.lor GPIO_JTAG_SIGNAL_MASKS (Z.lor GPIO_RESET_MASKS GPIO_BLINK_MASK).

(** The part of the output word that lies outside the six output masks. *)
Definition foreign_bits (s : driver_state) : Z :=
  Z.land (dedic_out s) (Z.lnot GPIO_OUTPUT_MASKS).

(** ** What the commands assign *)

(** The pin a single-pin command stores its argument in. *)
Definition assigned_by (c : command) (n : Z) (p : pin_config) : pin_config :=
  match c with
  | esp_gpio_tck_num => set_tck_gpio n p
  | esp_gpio_tms_num => set_tms_gpio n p
  | esp_gpio_tdo_num => set_tdo_gpio n p
  | esp_gpio_tdi_num => set_tdi_gpio n p
  | esp_gpio_srst_num => set_srst_gpio n p
  | esp_gpio_trst_num => set_trst_gpio n p
  | esp_gpio_blink_num => set_blink_gpio n p
  | esp_gpio_swclk_num => set_swclk_gpio n p
  | esp_gpio_swdio_num => set_swdio_gpio n p
  | esp_gpio_jtag_nums | esp_gpio_swd_nums => p
  end.

(** The pins a group command stores its arguments in, in argument order. *)
Definition group_pins (c : command) : list (Z -> pin_config -> pin_config) :=
  match c with
  | esp_gpio_jtag_nums => [set_tck_gpio; set_tms_gpio; set_tdi_gpio; set_tdo_gpio]
  | esp_gpio_swd_nums => [set_swclk_gpio; set_swdio_gpio]
  | _ => []
  end.

(** Stores values into pins pairwise, first value into first pin, for as
    long as both lists last. *)
Fixpoint store_values (setters : list (Z -> pin_config -> pin_config))
    (values : list Z) (p : pin_config) : pin_config :=
  match setters, values with
  | set :: setters', v :: values' => store_values setters' values' (set v p)
  | _, _ => p
  end.

Section ParsedArguments.

Context {helper : CommandHelper}.

(** The numbers of the arguments that parse, from the left, up to the first
    argument that does not, with that argument's error code if there is
    one. *)
Fixpoint parsed_prefix (CMD_ARGV : list string) : list Z * option Z :=
  match CMD_ARGV with
  | [] => ([], None)
  | a :: rest =>
      match parse_int a with
      | ParseOk n => (n :: fst (parsed_prefix rest), snd (parsed_prefix rest))
      | ParseErr code => ([], Some code)
      end
  end.

End ParsedArguments.

(** ** Auxiliary facts *)

Lemma spin_falls_through (n : nat) (s : driver_state) : spin n s = (Next tt, s).
Proof.
  induction n as [|n IH]; simpl.
  - reflexivity.
  - unfold bind, ret. exact IH.
Qed.

Lemma busy_wait_falls_through (s : driver_state) : busy_wait s = (Next tt, s).
Proof.
  unfold busy_wait, bind, gets. apply spin_falls_through.
Qed.

Lemma calls_since_app (s s' : driver_state) (l : list hw_call) :
  hw_calls s' = hw_calls s ++ l -> calls_since s s' = l.
Proof.
  intros E. unfold calls_since. rewrite E.
  rewrite skipn_app, skipn_all, Nat.sub_diag. reflexivity.
Qed.

(** *** Bits of a masked update *)

Lemma masked_update_testbit (old mask value i : Z) :
  Z.testbit (masked_update old mask value) i =
  if Z.testbit mask i then Z.testbit value i else Z.testbit old i.
Proof.
  unfold masked_update.
  destruct (Z.ltb_spec i 0) as [Hneg|Hpos].
  - rewrite !Z.testbit_neg_r by assumption. reflexivity.
  - rewrite Z.lor_spec, !Z.land_spec, Z.lnot_spec by assumption.
    destruct (Z.testbit mask i), (Z.testbit value i), (Z.testbit old i); reflexivity.
Qed.

Lemma land_pow2 (w k : Z) :
  0 <= k -> Z.land w (2 ^ k) = if Z.testbit w k then 2 ^ k else 0.
Proof.
  intros Hk. apply Z.bits_inj'. intros i Hi.
  rewrite Z.land_spec, Z.pow2_bits_eqb by assumption.
  destruct (Z.eqb_spec k i) as [->|Hne].
  - destruct (Z.testbit w i); simpl.
    + rewrite Z.pow2_bits_eqb, Z.eqb_refl by assumption. reflexivity.
    + rewrite Z.bits_0. reflexivity.
  - rewrite andb_false_r.
    destruct (Z.testbit w k).
    + rewrite Z.pow2_bits_eqb by assumption.
      symmetry. apply Z.eqb_neq. assumption.
    + rewrite Z.bits_0. reflexivity.
Qed.

Lemma bundle_bit_pow2 (w k : Z) :
  0 <= k -> bundle_bit w (2 ^ k) = Z.testbit w k.
Proof.
  intros Hk. unfold bundle_bit. rewrite land_pow2 by assumption.
  destruct (Z.testbit w k).
  - assert (0 < 2 ^ k) by (apply Z.pow_pos_nonneg; lia).
    destruct (Z.eqb_spec (2 ^ k) 0); [lia | reflexivity].
  - reflexivity.
Qed.

Lemma testbit_pow2_other (k i : Z) :
  0 <= k -> i <> k -> Z.testbit (2 ^ k) i = false.
Proof.
  intros Hk Hne. rewrite Z.pow2_bits_eqb by assumption.
  apply Z.eqb_neq. congruence.
Qed.

(** The bit a single-bit [mask] names after writing [value] under it. *)
Lemma bundle_bit_written (old k value : Z) :
  0 <= k ->
  bundle_bit (masked_update old (2 ^ k) value) (2 ^ k) = Z.testbit value k.
Proof.
  intros Hk. rewrite bundle_bit_pow2, masked_update_testbit by assumption.
  rewrite Z.pow2_bits_eqb, Z.eqb_refl by assumption. reflexivity.
Qed.

(** The bit of one single-bit mask after a write under another. *)
Lemma bundle_bit_kept (old k j value : Z) :
  0 <= k -> 0 <= j -> j <> k ->
  bundle_bit (masked_update old (2 ^ k) value) (2 ^ j) = bundle_bit old (2 ^ j).
Proof.
  intros Hk Hj Hne. rewrite !bundle_bit_pow2, masked_update_testbit by assumption.
  rewrite testbit_pow2_other by assumption. reflexivity.
Qed.

Lemma testbit_level (k : Z) (b : bool) :
  0 <= k -> Z.testbit (if b then 2 ^ k else 0) k = b.
Proof.
  intros Hk. destruct b.
  - rewrite Z.pow2_bits_eqb, Z.eqb_refl by assumption. reflexivity.
  - apply Z.bits_0.
Qed.

(** ** Running bodies *)

Ltac run_body :=
  cbv beta iota zeta delta
    [call call_void lift bind ret return_ gets modify emit LOG
     command_print dedic_gpio_cpu_ll_write_mask dedic_gpio_cpu_ll_read_in
     dedic_gpio_new_bundle gpio_mode_input_set gpio_mode_output_set
     gpio_mode_input_output_set gpio_set gpio_clear gpio_set_direction
     gpio_set_level gpio_ll_set_level gpio_ll_get_level
     fst snd pins jtag_delay s_jtag_speed_khz gpio_in_bundle gpio_out_bundle
     esp_gpio_bitbang_blink bitbang_interface dedic_out dedic_in gpio_in
     hw_calls log cmd_out
     with_pins with_s_jtag_speed_khz with_gpio_in_bundle with_gpio_out_bundle
     with_esp_gpio_bitbang_blink with_bitbang_interface with_dedic_out
     with_hw_calls with_log with_cmd_out].

(** ** esp_gpio_write *)

Lemma esp_gpio_write_run (tck tms tdi : Z) (s : driver_state) :
  let s' := snd (call (esp_gpio_write tck tms tdi) s) in
  fst (call (esp_gpio_write tck tms tdi) s) = ERROR_OK /\
  dedic_out s' =
    masked_update
      (masked_update
         (masked_update (dedic_out s) GPIO_TMS_MASK
            (if c_true tms then GPIO_TMS_MASK else 0))
         GPIO_TDI_MASK (if c_true tdi then GPIO_TDI_MASK else 0))
      GPIO_TCK_MASK (if c_true tck then GPIO_TCK_MASK else 0) /\
  hw_calls s' = hw_calls s ++
    [Call_dedic_gpio_cpu_ll_write_mask GPIO_TMS_MASK (if c_true tms then GPIO_TMS_MASK else 0);
     Call_dedic_gpio_cpu_ll_write_mask GPIO_TDI_MASK (if c_true tdi then GPIO_TDI_MASK else 0);
     Call_dedic_gpio_cpu_ll_write_mask GPIO_TCK_MASK (if c_true tck then GPIO_TCK_MASK else 0)] /\
  pins s' = pins s /\ s_jtag_speed_khz s' = s_jtag_speed_khz s.
Proof.
  destruct s as [p d k ib ob bl bi o i gi hc lg co].
  unfold esp_gpio_write. run_body.
  rewrite busy_wait_falls_through. run_body.
  rewrite <- !app_assoc. cbn [app]. repeat split; reflexivity.
Qed.

Ltac masks_as_powers :=
  change GPIO_TCK_MASK with (2 ^ 0) in *;
  change GPIO_TDI_MASK with (2 ^ 1) in *;
  change GPIO_TMS_MASK with (2 ^ 2) in *;
  change GPIO_TRST_MASK with (2 ^ 3) in *;
  change GPIO_SRST_MASK with (2 ^ 4) in *;
  change GPIO_BLINK_MASK with (2 ^ 5) in *.

Ltac bit_kept := rewrite bundle_bit_kept by lia.
Ltac bit_written := rewrite bundle_bit_written, testbit_level by lia.

(** Outside the bits of [m1], [m2] and [m3], three masked writes under
    these masks leave a word as it was. *)
Lemma masked_update3_frame (old m1 v1 m2 v2 m3 v3 : Z) :
  Z.land (masked_update (masked_update (masked_update old m1 v1) m2 v2) m3 v3)
         (Z.lnot (Z.lor m3 (Z.lor m2 m1))) =
  Z.land old (Z.lnot (Z.lor m3 (Z.lor m2 m1))).
Proof.
  apply Z.bits_inj'. intros i Hi.
  rewrite !Z.land_spec, !Z.lnot_spec, !Z.lor_spec, !masked_update_testbit by assumption.
  destruct (Z.testbit m3 i), (Z.testbit m2 i), (Z.testbit m1 i); simpl;
    rewrite ?andb_false_r; reflexivity.
Qed.

Lemma masked_update_frame (old m v : Z) :
  Z.land (masked_update old m v) (Z.lnot m) = Z.land old (Z.lnot m).
Proof.
  apply Z.bits_inj'. intros i Hi.
  rewrite !Z.land_spec, !Z.lnot_spec, !masked_update_testbit by assumption.
  destruct (Z.testbit m i); simpl; rewrite ?andb_false_r; reflexivity.
Qed.

(** A masked write leaves alone whatever lies outside a wider mask. *)
Lemma masked_update_frame_wider (old m v wide : Z) :
  Z.land m (Z.lnot wide) = 0 ->
  Z.land (masked_update old m v) (Z.lnot wide) = Z.land old (Z.lnot wide).
Proof.
  intros Hsub. apply Z.bits_inj'. intros i Hi.
  assert (Hbit : Z.testbit (Z.land m (Z.lnot wide)) i = false)
    by (rewrite Hsub; apply Z.bits_0).
  rewrite Z.land_spec, Z.lnot_spec in Hbit by assumption.
  rewrite !Z.land_spec, !Z.lnot_spec, !masked_update_testbit by assumption.
  destruct (Z.testbit m i), (Z.testbit wide i); simpl in *;
    rewrite ?andb_false_r; try reflexivity; discriminate.
Qed.

(** C1 (as amended): [esp_gpio_write tck tms tdi] returns [ERROR_OK]; after
    it the TCK, TMS and TDI bits of the output bundle word are the arguments
    read as C truth values, the TRST, SRST and indicator bits and every bit
    outside the three signal masks are as before, and the platform has seen
    three masked writes, of TMS, then TDI, then TCK, each under its own
    single-bit mask. *)
Theorem esp_gpio_write_sets_signals (tck tms tdi : Z) (s : driver_state) :
  let r := call (esp_gpio_write tck tms tdi) s in
  fst r = ERROR_OK /\
  bundle_bit (dedic_out (snd r)) GPIO_TCK_MASK = c_true tck /\
  bundle_bit (dedic_out (snd r)) GPIO_TMS_MASK = c_true tms /\
  bundle_bit (dedic_out (snd r)) GPIO_TDI_MASK = c_true tdi /\
  bundle_bit (dedic_out (snd r)) GPIO_TRST_MASK = bundle_bit (dedic_out s) GPIO_TRST_MASK /\
  bundle_bit (dedic_out (snd r)) GPIO_SRST_MASK = bundle_bit (dedic_out s) GPIO_SRST_MASK /\
  bundle_bit (dedic_out (snd r)) GPIO_BLINK_MASK = bundle_bit (dedic_out s) GPIO_BLINK_MASK /\
  Z.land (dedic_out (snd r)) (Z.lnot GPIO_JTAG_SIGNAL_MASKS) =
    Z.land (dedic_out s) (Z.lnot GPIO_JTAG_SIGNAL_MASKS) /\
  calls_since s (snd r) =
    [Call_dedic_gpio_cpu_ll_write_mask GPIO_TMS_MASK (if c_true tms then GPIO_TMS_MASK else 0);
     Call_dedic_gpio_cpu_ll_write_mask GPIO_TDI_MASK (if c_true tdi then GPIO_TDI_MASK else 0);
     Call_dedic_gpio_cpu_ll_write_mask GPIO_TCK_MASK (if c_true tck then GPIO_TCK_MASK else 0)].
Proof.
  intros r. subst r.
  destruct (esp_gpio_write_run tck tms tdi s) as (Hret & Hout & Hcalls & _ & _).
  rewrite Hout. clear Hout.
  split; [exact Hret|].
  split; [masks_as_powers; bit_written; reflexivity|].
  split; [masks_as_powers; do 2 bit_kept; bit_written; reflexivity|].
  split; [masks_as_powers; bit_kept; bit_written; reflexivity|].
  split; [masks_as_powers; do 3 bit_kept; reflexivity|].
  split; [masks_as_powers; do 3 bit_kept; reflexivity|].
  split; [masks_as_powers; do 3 bit_kept; reflexivity|].
  split; [apply masked_update3_frame|].
  apply calls_since_app. exact Hcalls.
Qed.

(** C1, the claim as written fails: the three signal bits do not reach the
    bundle in one write.  [esp_gpio_write 1 0 1] makes three platform
    calls, so the calls it adds are not a single masked write. *)
Lemma esp_gpio_write_three_writes :
  ~ single_bundle_write startup_state
      (snd (call (esp_gpio_write 1 0 1) startup_state)) /\
  List.length (calls_since startup_state
                 (snd (call (esp_gpio_write 1 0 1) startup_state))) = 3%nat.
Proof.
  split.
  - intros (mask & value & H). vm_compute in H. discriminate H.
  - reflexivity.
Qed.

(** ** esp_gpio_reset *)

Lemma esp_gpio_reset_run (trst srst : Z) (s : driver_state) :
  let s' := snd (call (esp_gpio_reset trst srst) s) in
  let after_trst :=
    if negb (trst_gpio (pins s) =? GPIO_NUM_NC)
    then masked_update (dedic_out s) GPIO_TRST_MASK (if c_true trst then GPIO_TRST_MASK else 0)
    else dedic_out s in
  fst (call (esp_gpio_reset trst srst) s) = ERROR_OK /\
  dedic_out s' =
    (if negb (srst_gpio (pins s) =? GPIO_NUM_NC)
     then masked_update after_trst GPIO_SRST_MASK (if c_true srst then GPIO_SRST_MASK else 0)
     else after_trst) /\
  hw_calls s' = hw_calls s ++
    (if negb (trst_gpio (pins s) =? GPIO_NUM_NC)
     then [Call_dedic_gpio_cpu_ll_write_mask GPIO_TRST_MASK (if c_true trst then GPIO_TRST_MASK else 0)]
     else []) ++
    (if negb (srst_gpio (pins s) =? GPIO_NUM_NC)
     then [Call_dedic_gpio_cpu_ll_write_mask GPIO_SRST_MASK (if c_true srst then GPIO_SRST_MASK else 0)]
     else []) /\
  pins s' = pins s /\ s_jtag_speed_khz s' = s_jtag_speed_khz s.
Proof.
  destruct s as [p d k ib ob bl bi o i gi hc lg co].
  unfold esp_gpio_reset. run_body.
  destruct (trst_gpio p =? GPIO_NUM_NC), (srst_gpio p =? GPIO_NUM_NC);
    run_body; cbn [negb app]; rewrite <- ?app_assoc, ?app_nil_r;
    repeat split; reflexivity.
Qed.

(** C6: [esp_gpio_reset trst srst] always returns [ERROR_OK].  When the TRST
    pin is configured its bundle bit becomes the C truth value of [trst],
    otherwise that bit keeps its value and no write is made for it; the same
    holds, independently, for SRST.  No other bit of the output word, and no
    pin assignment, changes. *)
Theorem esp_gpio_reset_drives_configured_lines (trst srst : Z) (s : driver_state) :
  let r := call (esp_gpio_reset trst srst) s in
  fst r = ERROR_OK /\
  bundle_bit (dedic_out (snd r)) GPIO_TRST_MASK =
    (if trst_gpio (pins s) =? GPIO_NUM_NC
     then bundle_bit (dedic_out s) GPIO_TRST_MASK else c_true trst) /\
  bundle_bit (dedic_out (snd r)) GPIO_SRST_MASK =
    (if srst_gpio (pins s) =? GPIO_NUM_NC
     then bundle_bit (dedic_out s) GPIO_SRST_MASK else c_true srst) /\
  Z.land (dedic_out (snd r)) (Z.lnot GPIO_RESET_MASKS) =
    Z.land (dedic_out s) (Z.lnot GPIO_RESET_MASKS) /\
  calls_since s (snd r) =
    (if trst_gpio (pins s) =? GPIO_NUM_NC then []
     else [Call_dedic_gpio_cpu_ll_write_mask GPIO_TRST_MASK
             (if c_true trst then GPIO_TRST_MASK else 0)]) ++
    (if srst_gpio (pins s) =? GPIO_NUM_NC then []
     else [Call_dedic_gpio_cpu_ll_write_mask GPIO_SRST_MASK
             (if c_true srst then GPIO_SRST_MASK else 0)]) /\
  pins (snd r) = pins s.
Proof.
  intros r. subst r.
  destruct (esp_gpio_reset_run trst srst s) as (Hret & Hout & Hcalls & Hpins & _).
  cbv zeta in Hout. rewrite Hout. clear Hout.
  split; [exact Hret|].
  split; [|split; [|split; [|split; [|exact Hpins]]]].
  - destruct (trst_gpio (pins s) =? GPIO_NUM_NC), (srst_gpio (pins s) =? GPIO_NUM_NC);
      cbn [negb]; masks_as_powers; try bit_kept; try bit_written; reflexivity.
  - destruct (trst_gpio (pins s) =? GPIO_NUM_NC), (srst_gpio (pins s) =? GPIO_NUM_NC);
      cbn [negb]; masks_as_powers; try bit_written; try bit_kept; reflexivity.
  - destruct (trst_gpio (pins s) =? GPIO_NUM_NC), (srst_gpio (pins s) =? GPIO_NUM_NC);
      cbn [negb]; rewrite ?masked_update_frame_wider by reflexivity; reflexivity.
  - apply calls_since_app. rewrite Hcalls.
    destruct (trst_gpio (pins s) =? GPIO_NUM_NC), (srst_gpio (pins s) =? GPIO_NUM_NC);
      reflexivity.
Qed.

(** ** Speed bookkeeping *)

(** C5: [esp_gpio_khz] refuses [khz = 0] with [ERROR_FAIL], which is not
    [ERROR_OK], and then neither the recorded nominal kHz nor the caller's
    speed variable changes; for any other [khz] it returns [ERROR_OK], the
    caller's speed variable becomes 0, and a following speed query reports
    [khz]. *)
Theorem esp_gpio_khz_rejects_zero_records_nonzero
    (khz jtag_speed : Z) (s : driver_state) :
  let r := esp_gpio_khz khz jtag_speed s in
  (khz = 0 ->
     fst (fst r) = ERROR_FAIL /\ ERROR_FAIL <> ERROR_OK /\
     snd (fst r) = jtag_speed /\
     speed_query (snd r) = speed_query s /\
     same_driver_and_platform s (snd r)) /\
  (khz <> 0 ->
     fst (fst r) = ERROR_OK /\
     snd (fst r) = 0 /\
     speed_query (snd r) = khz /\
     fst (fst (esp_gpio_speed_div 0 0 (snd r))) = ERROR_OK).
Proof.
  intros r. subst r. unfold esp_gpio_khz, c_true. split.
  - intros ->. cbn [Z.eqb negb]. run_body.
    unfold same_driver_and_platform, speed_query, esp_gpio_speed_div.
    destruct s. cbn. repeat split; try reflexivity. discriminate.
  - intros Hnz. apply Z.eqb_neq in Hnz. rewrite Hnz. cbn [negb].
    unfold speed_query, esp_gpio_speed_div. destruct s. cbn.
    repeat split; reflexivity.
Qed.

Lemma esp_gpio_khz_rejects_zero_records_nonzero_witness :
  speed_query (snd (esp_gpio_khz 0 7 (snd (esp_gpio_khz 1000 7 startup_state)))) = 1000 /\
  fst (fst (esp_gpio_khz 0 7 (snd (esp_gpio_khz 1000 7 startup_state)))) = ERROR_FAIL.
Proof.
  pose proof (esp_gpio_khz_rejects_zero_records_nonzero 1000 7 startup_state) as Hset.
  pose proof (esp_gpio_khz_rejects_zero_records_nonzero 0 7
                (snd (esp_gpio_khz 1000 7 startup_state))) as Hzero.
  cbv zeta in Hset, Hzero.
  destruct Hset as [_ Hset]. destruct Hzero as [Hzero _].
  destruct (Hset ltac:(lia)) as (_ & _ & Hq & _).
  destruct (Hzero eq_refl) as (Hfail & _ & _ & Hsame & _).
  split.
  - rewrite Hsame. exact Hq.
  - exact Hfail.
Defined.

Section Validation.

Context {soc : Soc}.

(** ** Mode validation *)

(** C2: [esp_gpio_jtag_mode_possible] is true exactly when TCK, TMS and TDO
    pass [GPIO_IS_VALID_OUTPUT_GPIO] and TDI passes [GPIO_IS_VALID_GPIO]; as
    soon as one of the four checks fails it is false. *)
Theorem esp_gpio_jtag_mode_possible_iff (s : driver_state) :
  (esp_gpio_jtag_mode_possible s = true <->
     GPIO_IS_VALID_OUTPUT_GPIO (tck_gpio (pins s)) = true /\
     GPIO_IS_VALID_OUTPUT_GPIO (tms_gpio (pins s)) = true /\
     GPIO_IS_VALID_OUTPUT_GPIO (tdo_gpio (pins s)) = true /\
     GPIO_IS_VALID_GPIO (tdi_gpio (pins s)) = true) /\
  (GPIO_IS_VALID_OUTPUT_GPIO (tck_gpio (pins s)) = false \/
   GPIO_IS_VALID_OUTPUT_GPIO (tms_gpio (pins s)) = false \/
   GPIO_IS_VALID_OUTPUT_GPIO (tdo_gpio (pins s)) = false \/
   GPIO_IS_VALID_GPIO (tdi_gpio (pins s)) = false ->
   esp_gpio_jtag_mode_possible s = false).
Proof.
  unfold esp_gpio_jtag_mode_possible.
  destruct (GPIO_IS_VALID_OUTPUT_GPIO (tck_gpio (pins s))),
           (GPIO_IS_VALID_OUTPUT_GPIO (tms_gpio (pins s))),
           (GPIO_IS_VALID_GPIO (tdi_gpio (pins s))),
           (GPIO_IS_VALID_OUTPUT_GPIO (tdo_gpio (pins s))); cbn [negb];
    (split; [split; [intros H; try discriminate H; repeat split; reflexivity
                    | intros (H1 & H2 & H3 & H4); try discriminate; reflexivity]
            | intros [H|[H|[H|H]]]; try discriminate H; reflexivity]).
Qed.

(** C9: [esp_gpio_swd_mode_possible] is true exactly when SWCLK and SWDIO
    both pass [GPIO_IS_VALID_GPIO]; if either fails it is false. *)
Theorem esp_gpio_swd_mode_possible_iff (s : driver_state) :
  (esp_gpio_swd_mode_possible s = true <->
     GPIO_IS_VALID_GPIO (swclk_gpio (pins s)) = true /\
     GPIO_IS_VALID_GPIO (swdio_gpio (pins s)) = true) /\
  (GPIO_IS_VALID_GPIO (swclk_gpio (pins s)) = false \/
   GPIO_IS_VALID_GPIO (swdio_gpio (pins s)) = false ->
   esp_gpio_swd_mode_possible s = false).
Proof.
  unfold esp_gpio_swd_mode_possible.
  destruct (GPIO_IS_VALID_GPIO (swclk_gpio (pins s))),
           (GPIO_IS_VALID_GPIO (swdio_gpio (pins s))); cbn [negb];
    (split; [split; [intros H; try discriminate H; repeat split; reflexivity
                    | intros (H1 & H2); try discriminate; reflexivity]
            | intros [H|H]; try discriminate H; reflexivity]).
Qed.

End Validation.

(** On the example platform, pins 4 5 6 7 pass the JTAG check; with TDI on
    the input-only pin 46 they still do, with TCK there they do not. *)
Lemma esp_gpio_jtag_mode_possible_iff_witness :
  @esp_gpio_jtag_mode_possible example_soc jtag_pins_4_5_6_7 = true /\
  @esp_gpio_jtag_mode_possible example_soc
     (with_pins (set_tdi_gpio 46) jtag_pins_4_5_6_7) = true /\
  @esp_gpio_jtag_mode_possible example_soc
     (with_pins (set_tck_gpio 46) jtag_pins_4_5_6_7) = false.
Proof.
  split; [|split].
  - apply (proj1 (@esp_gpio_jtag_mode_possible_iff example_soc jtag_pins_4_5_6_7)).
    vm_compute. repeat split; reflexivity.
  - apply (proj1 (@esp_gpio_jtag_mode_possible_iff example_soc
                    (with_pins (set_tdi_gpio 46) jtag_pins_4_5_6_7))).
    vm_compute. repeat split; reflexivity.
  - apply (proj2 (@esp_gpio_jtag_mode_possible_iff example_soc
                    (with_pins (set_tck_gpio 46) jtag_pins_4_5_6_7))).
    left. vm_compute. reflexivity.
Defined.

Lemma esp_gpio_swd_mode_possible_iff_witness :
  @esp_gpio_swd_mode_possible example_soc swd_pins_10_11 = true /\
  @esp_gpio_swd_mode_possible example_soc startup_state = false.
Proof.
  split.
  - apply (proj1 (@esp_gpio_swd_mode_possible_iff example_soc swd_pins_10_11)).
    vm_compute. repeat split; reflexivity.
  - apply (proj2 (@esp_gpio_swd_mode_possible_iff example_soc startup_state)).
    left. vm_compute. reflexivity.
Defined.

(** ** Configuration commands *)

Section Commands.

Context {helper : CommandHelper}.

Lemma nat_eqb_false (n m : nat) : n <> m -> Nat.eqb n m = false.
Proof. intros H. apply Nat.eqb_neq. exact H. Qed.

(** C3 (as amended): a command called with an argument count other than the
    one its usage names parses nothing and reassigns no pin.  The two group
    commands then return [ERROR_COMMAND_SYNTAX_ERROR], printing nothing,
    unless the count is 0; every single-pin command, and every command
    called with no argument, prints its current values and returns
    [ERROR_OK]. *)
Theorem unexpected_argument_count_changes_no_pin
    (c : command) (CMD_ARGV : list string) (s : driver_state) :
  List.length CMD_ARGV <> expected_argc c ->
  let r := call (esp_gpio_command_handlers c CMD_ARGV) s in
  let refused := is_group_command c && negb (Nat.eqb (List.length CMD_ARGV) 0) in
  same_driver_and_platform s (snd r) /\
  fst r = (if refused then ERROR_COMMAND_SYNTAX_ERROR else ERROR_OK) /\
  cmd_out (snd r) =
    (if refused then cmd_out s else cmd_out s ++ [report_line c (pins s)]).
Proof.
  intros Hargc r refused. subst r refused.
  destruct s as [p d k ib ob bl bi o i gi hc lg co].
  unfold same_driver_and_platform.
  destruct c; cbn [expected_argc] in Hargc; apply nat_eqb_false in Hargc;
    cbn [esp_gpio_command_handlers is_group_command report_line andb];
    unfold esp_gpio_handle_jtag_gpionums, esp_gpio_handle_jtag_gpionum_tck,
      esp_gpio_handle_jtag_gpionum_tms, esp_gpio_handle_jtag_gpionum_tdo,
      esp_gpio_handle_jtag_gpionum_tdi, esp_gpio_handle_jtag_gpionum_srst,
      esp_gpio_handle_jtag_gpionum_trst, esp_gpio_handle_jtag_gpionum_blink,
      esp_gpio_handle_swd_gpionums, esp_gpio_handle_swd_gpionum_swclk,
      esp_gpio_handle_swd_gpionum_swdio;
    cbv zeta; rewrite Hargc;
    try (destruct (Nat.eqb (List.length CMD_ARGV) 0)); cbn [negb];
    run_body; repeat split; reflexivity.
Qed.

End Commands.

Lemma unexpected_argument_count_changes_no_pin_witness :
  fst (call (@esp_gpio_handle_jtag_gpionums example_helper ["8"; "9"])
         jtag_pins_4_5_6_7) = ERROR_COMMAND_SYNTAX_ERROR /\
  pins (snd (call (@esp_gpio_handle_jtag_gpionums example_helper ["8"; "9"])
               jtag_pins_4_5_6_7)) = pins jtag_pins_4_5_6_7.
Proof.
  destruct (@unexpected_argument_count_changes_no_pin example_helper
              esp_gpio_jtag_nums ["8"; "9"] jtag_pins_4_5_6_7)
    as ((Hpins & _) & Hret & _).
  - cbn. lia.
  - split; [exact Hret | exact Hpins].
Defined.

(** C3, the claim as written fails for the single-pin commands:
    [esp_gpio_tck_num 1 2] has neither no argument nor the one argument its
    usage names, yet it is not refused; it returns [ERROR_OK]. *)
Lemma single_pin_command_accepts_two_arguments :
  List.length ["1"; "2"] <> 0%nat /\
  List.length ["1"; "2"] <> expected_argc esp_gpio_tck_num /\
  fst (call (@esp_gpio_command_handlers example_helper esp_gpio_tck_num ["1"; "2"])
         startup_state) = ERROR_OK /\
  ~ @refused_as_syntax_error example_helper esp_gpio_tck_num ["1"; "2"]
      startup_state.
Proof.
  split; [cbn; lia|]. split; [cbn; lia|]. split; [reflexivity|].
  intros [Hret _]. vm_compute in Hret. discriminate Hret.
Qed.

(** ** esp_gpio_init *)

Section Init.

Context {soc : Soc}.

Lemma esp_gpio_jtag_mode_possible_pins (s s' : driver_state) :
  pins s' = pins s ->
  esp_gpio_jtag_mode_possible s' = esp_gpio_jtag_mode_possible s.
Proof. unfold esp_gpio_jtag_mode_possible. intros ->. reflexivity. Qed.

Lemma esp_gpio_swd_mode_possible_pins (s s' : driver_state) :
  pins s' = pins s ->
  esp_gpio_swd_mode_possible s' = esp_gpio_swd_mode_possible s.
Proof. unfold esp_gpio_swd_mode_possible. intros ->. reflexivity. Qed.

Ltac crank Hj Hs Et Es Eb :=
  repeat (run_body;
          rewrite ?Hj by reflexivity; rewrite ?Hs by reflexivity;
          rewrite ?Et, ?Es, ?Eb; cbn [negb andb orb];
          match goal with
          | |- context [if ?c then _ else _] => is_var c; destruct c
          end).

(** Everything [esp_gpio_init] leaves behind, by the course it takes. *)
Lemma esp_gpio_init_run (t : transport_queries) (s : driver_state) :
  let r := call (esp_gpio_init t) s in
  let failed := jtag_block_fails t s || swd_block_fails t s in
  fst r = (if failed then ERROR_FAIL else ERROR_OK) /\
  hw_calls (snd r) = hw_calls s ++
    (if jtag_block_sets_up t s then jtag_path_calls (pins s) else []) ++
    (if swd_block_sets_up t s then swd_path_calls (pins s) else []) /\
  pins (snd r) = pins s /\
  jtag_delay (snd r) = jtag_delay s /\
  dedic_out (snd r) = dedic_out s /\
  s_jtag_speed_khz (snd r) = 5000 /\
  gpio_out_bundle (snd r) =
    (if jtag_block_sets_up t s then Some (out_bundle_of (pins s))
     else gpio_out_bundle s) /\
  gpio_in_bundle (snd r) =
    (if jtag_block_sets_up t s then Some (in_bundle_of (pins s))
     else gpio_in_bundle s) /\
  bitbang_interface (snd r) =
    (if failed then bitbang_interface s else Some ref_esp_gpio_bitbang) /\
  esp_gpio_bitbang_blink (snd r) =
    (if swd_block_sets_up t s && negb (blink_gpio (pins s) =? GPIO_NUM_NC)
     then Some fn_esp_gpio_swdio_blink
     else if jtag_block_sets_up t s && negb (blink_gpio (pins s) =? GPIO_NUM_NC)
     then Some fn_esp_gpio_blink
     else esp_gpio_bitbang_blink s) /\
  log (snd r) = log s ++
    [(LOG_LVL_INFO, "esp_gpio GPIO JTAG/SWD bitbang driver")] ++
    (if jtag_block_fails t s then [(LOG_LVL_ERROR, "some JTAG pins are not set")]
     else if swd_block_fails t s then [(LOG_LVL_ERROR, "some SWD pins are not set")]
     else []).
Proof.
  pose proof (esp_gpio_jtag_mode_possible_pins s) as Hj.
  pose proof (esp_gpio_swd_mode_possible_pins s) as Hs.
  unfold swd_block_fails, swd_block_sets_up, jtag_block_fails, jtag_block_sets_up.
  generalize dependent (esp_gpio_jtag_mode_possible s). intros jtag_ok Hj.
  generalize dependent (esp_gpio_swd_mode_possible s). intros swd_ok Hs.
  destruct s as [p d k ib ob bl bi o i gi hc lg co].
  cbn [pins] in Hj, Hs.
  destruct t as [is_jtag is_swd].
  unfold esp_gpio_init, esp_gpio_khz, c_true, jtag_path_calls, swd_path_calls,
    optional_pin_calls, out_bundle_of, in_bundle_of, bundle_slot.
  cbn [Z.eqb negb transport_is_jtag transport_is_swd].
  destruct (trst_gpio p =? GPIO_NUM_NC) eqn:Et,
           (srst_gpio p =? GPIO_NUM_NC) eqn:Es,
           (blink_gpio p =? GPIO_NUM_NC) eqn:Eb;
    destruct is_jtag, is_swd; cbn [andb orb negb];
    crank Hj Hs Et Es Eb; run_body;
    rewrite ?Et, ?Es, ?Eb;
    cbn [andb orb negb array_set List.length app];
    rewrite <- ?app_assoc; cbn [app]; rewrite ?app_nil_r;
    repeat split; reflexivity.
Qed.

End Init.

(** *** What the two paths ask of the bundle allocator *)

Lemma bundles_requested_app (l1 l2 : list hw_call) :
  bundles_requested (l1 ++ l2) = bundles_requested l1 ++ bundles_requested l2.
Proof.
  induction l1 as [|c l1 IH]; cbn [app bundles_requested].
  - reflexivity.
  - destruct c; cbn [app]; rewrite IH; reflexivity.
Qed.

Lemma bundles_requested_optional (g level : Z) :
  bundles_requested (optional_pin_calls g level) = [].
Proof.
  unfold optional_pin_calls. destruct (g =? GPIO_NUM_NC); reflexivity.
Qed.

Lemma bundles_requested_jtag_path (p : pin_config) :
  bundles_requested (jtag_path_calls p) = [out_bundle_of p; in_bundle_of p].
Proof.
  unfold jtag_path_calls.
  rewrite !bundles_requested_app, !bundles_requested_optional.
  reflexivity.
Qed.

Lemma bundles_requested_swd_path (p : pin_config) :
  bundles_requested (swd_path_calls p) = [].
Proof.
  unfold swd_path_calls.
  rewrite bundles_requested_app, bundles_requested_optional.
  reflexivity.
Qed.

Lemma jtag_path_is_not_swd_path (p p' : pin_config) :
  jtag_path_calls p <> swd_path_calls p'.
Proof.
  intros H. apply (f_equal bundles_requested) in H.
  rewrite bundles_requested_jtag_path, bundles_requested_swd_path in H.
  discriminate H.
Qed.

Section InitProperties.

Context {soc : Soc}.

(** C4 (as amended): when the JTAG transport is requested and its pins pass
    validation, [esp_gpio_init] asks for exactly two bundles, first an
    output bundle of six pins [TCK, TDI, TMS, TRST, SRST, indicator] in
    this order, the slot of an unassigned optional signal holding pin
    number 0, then an input bundle holding TDO alone; the two handles are
    stored in [gpio_out_bundle] and [gpio_in_bundle]. *)
Theorem esp_gpio_init_jtag_bundles (t : transport_queries) (s : driver_state) :
  transport_is_jtag t = true ->
  esp_gpio_jtag_mode_possible s = true ->
  let s' := snd (call (esp_gpio_init t) s) in
  bundles_requested (calls_since s s') =
    [out_bundle_of (pins s); in_bundle_of (pins s)] /\
  gpio_array (out_bundle_of (pins s)) =
    [tck_gpio (pins s); tdi_gpio (pins s); tms_gpio (pins s);
     (if trst_gpio (pins s) =? GPIO_NUM_NC then 0 else trst_gpio (pins s));
     (if srst_gpio (pins s) =? GPIO_NUM_NC then 0 else srst_gpio (pins s));
     (if blink_gpio (pins s) =? GPIO_NUM_NC then 0 else blink_gpio (pins s))] /\
  flags_out_en (out_bundle_of (pins s)) = true /\
  gpio_array (in_bundle_of (pins s)) = [tdo_gpio (pins s)] /\
  flags_in_en (in_bundle_of (pins s)) = true /\
  gpio_out_bundle s' = Some (out_bundle_of (pins s)) /\
  gpio_in_bundle s' = Some (in_bundle_of (pins s)).
Proof.
  intros Hjtag Hok s'. subst s'.
  destruct (esp_gpio_init_run t s)
    as (_ & Hcalls & _ & _ & _ & _ & Hout & Hin & _).
  unfold jtag_block_sets_up in *. rewrite Hjtag, Hok in *. cbn [andb] in *.
  rewrite (calls_since_app _ _ _ Hcalls).
  rewrite bundles_requested_app, bundles_requested_jtag_path.
  assert (Hswd : bundles_requested
                   (if swd_block_sets_up t s then swd_path_calls (pins s) else []) = [])
    by (destruct (swd_block_sets_up t s);
        [apply bundles_requested_swd_path | reflexivity]).
  rewrite Hswd.
  repeat split; try reflexivity; assumption.
Qed.

(** C8: when the JTAG transport is requested and its validation fails,
    [esp_gpio_init] returns [ERROR_FAIL], logs the error, and has set up
    nothing: no platform call, no bundle, no callback, no interface hookup.
    When the SWD transport is requested and its validation fails,
    [esp_gpio_init] returns [ERROR_FAIL] without the interface hookup and
    without any platform call of the SWD path; if JTAG was not requested
    as well, it has set up nothing at all. *)
Theorem esp_gpio_init_validation_failure (t : transport_queries) (s : driver_state) :
  let r := call (esp_gpio_init t) s in
  (transport_is_jtag t = true -> esp_gpio_jtag_mode_possible s = false ->
     fst r = ERROR_FAIL /\ ERROR_FAIL <> ERROR_OK /\
     nothing_set_up s (snd r) /\
     In (LOG_LVL_ERROR, "some JTAG pins are not set") (log (snd r))) /\
  (transport_is_swd t = true -> esp_gpio_swd_mode_possible s = false ->
     fst r = ERROR_FAIL /\
     bitbang_interface (snd r) = bitbang_interface s /\
     calls_since s (snd r) =
       (if jtag_block_sets_up t s then jtag_path_calls (pins s) else []) /\
     (transport_is_jtag t = false ->
        nothing_set_up s (snd r) /\
        In (LOG_LVL_ERROR, "some SWD pins are not set") (log (snd r)))).
Proof.
  intros r. subst r.
  destruct (esp_gpio_init_run t s)
    as (Hret & Hcalls & Hpins & _ & Hdo & _ & Hout & Hin & Hbi & Hbl & Hlog).
  cbv zeta in Hret, Hbi.
  unfold swd_block_fails, swd_block_sets_up, jtag_block_fails, jtag_block_sets_up in *.
  split.
  - intros Hjtag Hbad. rewrite Hjtag, Hbad in *. cbn [andb orb negb] in *.
    rewrite app_nil_r in Hcalls.
    unfold nothing_set_up.
    repeat split; try assumption; try discriminate.
    rewrite Hlog. apply in_or_app. right. right. left. reflexivity.
  - intros Hswd Hbad. rewrite Hswd, Hbad in *.
    destruct (transport_is_jtag t), (esp_gpio_jtag_mode_possible s);
      cbn [andb orb negb app] in *; rewrite ?app_nil_r in Hcalls;
      (split; [exact Hret|]); (split; [exact Hbi|]);
      (split; [apply calls_since_app; rewrite Hcalls, ?app_nil_r; reflexivity|]);
      intros Hno; try discriminate Hno;
      unfold nothing_set_up; (split; [repeat split; assumption|]);
      rewrite Hlog; apply in_or_app; right; right; left; reflexivity.
Qed.

(** C7: with the session's transport being one of JTAG and SWD,
    [esp_gpio_init] succeeds exactly when the validation of that transport
    passes; when it succeeds the platform has seen the calls of that
    transport's path and not those of the other; when it fails the platform
    has seen no call at all. *)
Theorem esp_gpio_init_sets_up_session_transport
    (m : TransportMode) (s : driver_state) :
  let r := call (esp_gpio_init (session m)) s in
  (fst r = ERROR_OK <-> validation m s = true) /\
  (fst r = ERROR_OK ->
     match m with
     | JTAG => jtag_path_ran s (snd r) /\ ~ swd_path_ran s (snd r)
     | SWD => swd_path_ran s (snd r) /\ ~ jtag_path_ran s (snd r)
     end) /\
  (fst r <> ERROR_OK -> calls_since s (snd r) = []).
Proof.
  intros r. subst r.
  destruct (esp_gpio_init_run (session m) s) as (Hret & Hcalls & _).
  cbv zeta in Hret.
  unfold swd_block_fails, swd_block_sets_up, jtag_block_fails, jtag_block_sets_up in *.
  unfold jtag_path_ran, swd_path_ran.
  destruct m; cbn [session transport_is_jtag transport_is_swd validation] in *.
  - destruct (esp_gpio_jtag_mode_possible s); cbn [andb orb negb app] in *;
      apply calls_since_app in Hcalls; rewrite ?app_nil_r in Hcalls;
      rewrite Hret, Hcalls.
    + split; [split; reflexivity|]. split.
      * intros _. split; [reflexivity|]. apply jtag_path_is_not_swd_path.
      * intros H. contradiction H. reflexivity.
    + split; [split; discriminate|]. split.
      * discriminate.
      * reflexivity.
  - destruct (esp_gpio_swd_mode_possible s); cbn [andb orb negb app] in *;
      apply calls_since_app in Hcalls; rewrite ?app_nil_r in Hcalls;
      rewrite Hret, Hcalls.
    + split; [split; reflexivity|]. split.
      * intros _. split; [reflexivity|].
        intros H. symmetry in H. exact (jtag_path_is_not_swd_path _ _ H).
      * intros H. contradiction H. reflexivity.
    + split; [split; discriminate|]. split.
      * discriminate.
      * reflexivity.
Qed.

End InitProperties.

(** With both transport queries answering yes, which no session does, the
    two blocks of [esp_gpio_init] would both run. *)
Lemma esp_gpio_init_both_queries_true :
  calls_since jtag_and_swd_pins
    (snd (call (@esp_gpio_init example_soc
                  {| transport_is_jtag := true; transport_is_swd := true |})
            jtag_and_swd_pins)) =
  jtag_path_calls (pins jtag_and_swd_pins) ++ swd_path_calls (pins jtag_and_swd_pins).
Proof. vm_compute. reflexivity. Qed.

(** The JTAG scenario: pins 4 5 6 7, JTAG initialisation, then
    [esp_gpio_write(1, 1, 0)] and [esp_gpio_read()].  Every step succeeds,
    the bundle word shows TCK and TMS set and TDI clear, and the read hands
    back the input word. *)
Lemma jtag_scenario_4_5_6_7 :
  fst (call (@esp_gpio_init example_soc (session JTAG)) jtag_pins_4_5_6_7) = ERROR_OK /\
  fst (call (esp_gpio_write 1 1 0)
         (snd (call (@esp_gpio_init example_soc (session JTAG)) jtag_pins_4_5_6_7)))
    = ERROR_OK /\
  dedic_out
    (snd (call (esp_gpio_write 1 1 0)
            (snd (call (@esp_gpio_init example_soc (session JTAG)) jtag_pins_4_5_6_7))))
    = Z.lor GPIO_TCK_MASK GPIO_TMS_MASK /\
  fst (call esp_gpio_read
         (snd (call (esp_gpio_write 1 1 0)
                 (snd (call (@esp_gpio_init example_soc (session JTAG))
                         jtag_pins_4_5_6_7)))))
    = dedic_in jtag_pins_4_5_6_7.
Proof. vm_compute. repeat split; reflexivity. Qed.

Lemma esp_gpio_init_jtag_bundles_witness :
  bundles_requested
    (calls_since jtag_pins_4_5_6_7
       (snd (call (@esp_gpio_init example_soc (session JTAG)) jtag_pins_4_5_6_7))) =
  [ {| gpio_array := [4; 6; 5; 0; 0; 0]; array_size := 6;
       flags_in_en := false; flags_out_en := true |};
    {| gpio_array := [7]; array_size := 1;
       flags_in_en := true; flags_out_en := false |} ].
Proof.
  refine (proj1 (@esp_gpio_init_jtag_bundles example_soc (session JTAG)
                   jtag_pins_4_5_6_7 _ _)).
  - reflexivity.
  - vm_compute. reflexivity.
Defined.

(** C4, the claim as written fails: after [esp_gpio_jtag_nums 4 5 6 7] and a
    JTAG initialisation the output bundle holds the pins [4, 6, 5, 0, 0, 0].
    The three optional slots are not absent: the list has six entries, and
    where TRST, SRST and the indicator are unassigned it carries GPIO 0, a
    valid pin, not the not-connected value. *)
Lemma esp_gpio_init_unassigned_slots_hold_pin_0 :
  fst (call (@esp_gpio_init example_soc (session JTAG)) jtag_pins_4_5_6_7) = ERROR_OK /\
  option_map gpio_array
    (gpio_out_bundle
       (snd (call (@esp_gpio_init example_soc (session JTAG)) jtag_pins_4_5_6_7))) =
    Some [4; 6; 5; 0; 0; 0] /\
  option_map gpio_array
    (gpio_out_bundle
       (snd (call (@esp_gpio_init example_soc (session JTAG)) jtag_pins_4_5_6_7))) <>
    Some (out_bundle_pins_with_absent (pins jtag_pins_4_5_6_7)) /\
  option_map gpio_array
    (gpio_out_bundle
       (snd (call (@esp_gpio_init example_soc (session JTAG)) jtag_pins_4_5_6_7))) <>
    Some [4; 6; 5] /\
  @GPIO_IS_VALID_OUTPUT_GPIO example_soc 0 = true /\
  option_map gpio_array
    (gpio_in_bundle
       (snd (call (@esp_gpio_init example_soc (session JTAG)) jtag_pins_4_5_6_7))) =
    Some [7].
Proof.
  vm_compute. repeat split; try reflexivity; discriminate.
Qed.

Lemma esp_gpio_init_validation_failure_witness :
  fst (call (@esp_gpio_init example_soc (session JTAG)) startup_state) = ERROR_FAIL /\
  hw_calls (snd (call (@esp_gpio_init example_soc (session JTAG)) startup_state)) = [] /\
  fst (call (@esp_gpio_init example_soc (session SWD)) jtag_pins_4_5_6_7) = ERROR_FAIL /\
  bitbang_interface
    (snd (call (@esp_gpio_init example_soc (session SWD)) jtag_pins_4_5_6_7)) = None.
Proof.
  destruct (@esp_gpio_init_validation_failure example_soc (session JTAG) startup_state)
    as [Hjtag _].
  destruct (@esp_gpio_init_validation_failure example_soc (session SWD) jtag_pins_4_5_6_7)
    as [_ Hswd].
  cbv zeta in Hjtag, Hswd.
  destruct (Hjtag eq_refl eq_refl) as (Hret1 & _ & (_ & _ & _ & _ & _ & _ & Hcalls1) & _).
  destruct (Hswd eq_refl eq_refl) as (Hret2 & Hbi2 & _).
  repeat split; assumption.
Defined.

Lemma esp_gpio_init_sets_up_session_transport_witness :
  jtag_path_ran jtag_pins_4_5_6_7
    (snd (call (@esp_gpio_init example_soc (session JTAG)) jtag_pins_4_5_6_7)) /\
  swd_path_ran swd_pins_10_11
    (snd (call (@esp_gpio_init example_soc (session SWD)) swd_pins_10_11)) /\
  calls_since startup_state
    (snd (call (@esp_gpio_init example_soc (session SWD)) startup_state)) = [].
Proof.
  destruct (@esp_gpio_init_sets_up_session_transport example_soc JTAG jtag_pins_4_5_6_7)
    as (_ & Hjtag & _).
  destruct (@esp_gpio_init_sets_up_session_transport example_soc SWD swd_pins_10_11)
    as (_ & Hswd & _).
  destruct (@esp_gpio_init_sets_up_session_transport example_soc SWD startup_state)
    as (_ & _ & Hnone).
  split; [|split].
  - apply Hjtag. reflexivity.
  - apply Hswd. reflexivity.
  - apply Hnone. discriminate.
Defined.

(** ** What keeps the recorded speed *)

Lemma snd_call (body : M Z) (s : driver_state) : snd (call body s) = snd (body s).
Proof. unfold call. destruct (body s) as [[code|code] s']; reflexivity. Qed.

Section Keeps.

Context {A B C : Type} (f : driver_state -> C).

Lemma keeps_ret (a : A) : keeps f (ret a).
Proof. intros s. reflexivity. Qed.

Lemma keeps_return (code : Z) : keeps f (@return_ A code).
Proof. intros s. reflexivity. Qed.

Lemma keeps_gets (g : driver_state -> A) : keeps f (gets g).
Proof. intros s. reflexivity. Qed.

Lemma keeps_modify (g : driver_state -> driver_state) :
  (forall s, f (g s) = f s) -> keeps f (modify g).
Proof. intros Hg s. apply Hg. Qed.

Lemma keeps_bind (m : M A) (k : A -> M B) :
  keeps f m -> (forall a, keeps f (k a)) -> keeps f (bind m k).
Proof.
  intros Hm Hk s. unfold bind.
  specialize (Hm s).
  destruct (m s) as [[a|code] s'] eqn:E; cbn [snd] in *.
  - rewrite Hk. exact Hm.
  - exact Hm.
Qed.

End Keeps.

Lemma keeps_spin {C : Type} (f : driver_state -> C) (n : nat) : keeps f (spin n).
Proof. intros s. rewrite spin_falls_through. reflexivity. Qed.

(** Peels a body apart along its binds and branches. *)
Ltac keeps_step :=
  first
    [ apply keeps_ret
    | apply keeps_return
    | apply keeps_gets
    | apply keeps_spin
    | apply keeps_modify; intros [? ? ? ? ? ? ? ? ? ? ? ? ?]; reflexivity
    | apply keeps_bind; [|intros ?]
    | match goal with
      | |- keeps _ (if ?c then _ else _) => destruct c
      | |- keeps _ (match ?x with _ => _ end) => destruct x
      end ].

Ltac keeps_auto :=
  unfold gpio_mode_input_set, gpio_mode_output_set, gpio_mode_input_output_set,
    gpio_set, gpio_clear, gpio_set_direction, gpio_set_level, gpio_ll_set_level,
    gpio_ll_get_level, dedic_gpio_cpu_ll_write_mask, dedic_gpio_cpu_ll_read_in,
    busy_wait, emit, LOG, command_print;
  repeat keeps_step.

Section SpeedKept.

Context {helper : CommandHelper}.

Lemma COMMAND_PARSE_NUMBER_int_keeps_speed
    (in_ out_name : string) (out : Z -> pin_config -> pin_config) :
  keeps s_jtag_speed_khz (COMMAND_PARSE_NUMBER_int in_ out_name out).
Proof. unfold COMMAND_PARSE_NUMBER_int. keeps_auto. Qed.

Lemma command_keeps_speed (c : command) (CMD_ARGV : list string) :
  keeps s_jtag_speed_khz (esp_gpio_command_handlers c CMD_ARGV).
Proof.
  destruct c; cbn [esp_gpio_command_handlers];
    unfold esp_gpio_handle_jtag_gpionums, esp_gpio_handle_jtag_gpionum_tck,
      esp_gpio_handle_jtag_gpionum_tms, esp_gpio_handle_jtag_gpionum_tdo,
      esp_gpio_handle_jtag_gpionum_tdi, esp_gpio_handle_jtag_gpionum_srst,
      esp_gpio_handle_jtag_gpionum_trst, esp_gpio_handle_jtag_gpionum_blink,
      esp_gpio_handle_swd_gpionums, esp_gpio_handle_swd_gpionum_swclk,
      esp_gpio_handle_swd_gpionum_swdio;
    cbv zeta;
    repeat first [apply COMMAND_PARSE_NUMBER_int_keeps_speed | keeps_step].
Qed.

Lemma run_op_keeps_speed (o : driver_op) (s : driver_state) :
  s_jtag_speed_khz (run_op o s) = s_jtag_speed_khz s.
Proof.
  destruct o; cbn [run_op]; unfold call_void; rewrite ?snd_call;
    try match goal with
        | |- s_jtag_speed_khz (snd (?m s)) = _ =>
            revert s; change (keeps s_jtag_speed_khz m)
        end.
  - unfold esp_gpio_read. keeps_auto.
  - unfold esp_gpio_write. keeps_auto.
  - unfold esp_gpio_reset. keeps_auto.
  - unfold esp_gpio_blink. keeps_auto.
  - unfold esp_gpio_swdio_drive. keeps_auto.
  - unfold esp_gpio_swdio_read. keeps_auto.
  - unfold esp_gpio_swdio_write. keeps_auto.
  - unfold esp_gpio_swdio_blink. keeps_auto.
  - unfold esp_gpio_speed. keeps_auto.
  - reflexivity.
  - unfold esp_gpio_quit. keeps_auto.
  - apply command_keeps_speed.
Qed.

Lemma run_ops_keeps_speed (ops : list driver_op) (s : driver_state) :
  s_jtag_speed_khz (run_ops ops s) = s_jtag_speed_khz s.
Proof.
  unfold run_ops. revert s.
  induction ops as [|o ops IH]; intros s; cbn [fold_left].
  - reflexivity.
  - rewrite IH. apply run_op_keeps_speed.
Qed.

Context {soc : Soc}.

(** C10: whatever the transport queries answer and whatever speed was
    recorded before, [esp_gpio_init] records 5000 kHz, whether it then
    succeeds or fails; a speed query right after it, or after any further
    calls into the driver other than [esp_gpio_khz] and [esp_gpio_init],
    reports 5000. *)
Theorem esp_gpio_init_records_5000_khz
    (t : transport_queries) (s : driver_state) (ops : list driver_op) :
  let s' := snd (call (esp_gpio_init t) s) in
  s_jtag_speed_khz s' = 5000 /\
  speed_query s' = 5000 /\
  speed_query (run_ops ops s') = 5000.
Proof.
  intros s'. subst s'.
  destruct (esp_gpio_init_run t s) as (_ & _ & _ & _ & _ & Hspeed & _).
  unfold speed_query, esp_gpio_speed_div. cbn [fst snd].
  rewrite run_ops_keeps_speed.
  repeat split; exact Hspeed.
Qed.

End SpeedKept.

(** ** Further properties of the signal primitives *)

(** Bitwise comparison of two words built from masked updates under the
    driver's single-bit masks. *)
Ltac compare_bits :=
  apply Z.bits_inj'; intros i Hi;
  rewrite ?Z.land_spec, ?Z.lnot_spec, ?Z.lor_spec, ?masked_update_testbit by assumption;
  masks_as_powers;
  rewrite ?Z.pow2_bits_eqb by lia;
  repeat match goal with
         | |- context [Z.eqb ?k i] => destruct (Z.eqb_spec k i)
         end;
  try lia; cbn [negb andb orb]; rewrite ?andb_false_r; reflexivity.

Lemma esp_gpio_blink_run (on : Z) (s : driver_state) :
  fst (call (esp_gpio_blink on) s) = ERROR_OK /\
  dedic_out (snd (call (esp_gpio_blink on) s)) =
    masked_update (dedic_out s) GPIO_BLINK_MASK
      (if c_true on then GPIO_BLINK_MASK else 0) /\
  hw_calls (snd (call (esp_gpio_blink on) s)) = hw_calls s ++
    [Call_dedic_gpio_cpu_ll_write_mask GPIO_BLINK_MASK
       (if c_true on then GPIO_BLINK_MASK else 0)] /\
  pins (snd (call (esp_gpio_blink on) s)) = pins s.
Proof.
  destruct s as [p d k ib ob bl bi o i gi hc lg co].
  unfold esp_gpio_blink. run_body. repeat split; reflexivity.
Qed.

(** X1: [esp_gpio_blink on] returns [ERROR_OK] and makes one masked write
    under the indicator mask: the indicator bit of the output word becomes
    the C truth value of [on], the five JTAG and reset bits and every other
    bit keep their values, and no pin is reassigned. *)
Theorem esp_gpio_blink_sets_indicator_only (on : Z) (s : driver_state) :
  let r := call (esp_gpio_blink on) s in
  fst r = ERROR_OK /\
  bundle_bit (dedic_out (snd r)) GPIO_BLINK_MASK = c_true on /\
  Z.land (dedic_out (snd r)) (Z.lnot GPIO_BLINK_MASK) =
    Z.land (dedic_out s) (Z.lnot GPIO_BLINK_MASK) /\
  bundle_bit (dedic_out (snd r)) GPIO_TCK_MASK = bundle_bit (dedic_out s) GPIO_TCK_MASK /\
  bundle_bit (dedic_out (snd r)) GPIO_TDI_MASK = bundle_bit (dedic_out s) GPIO_TDI_MASK /\
  bundle_bit (dedic_out (snd r)) GPIO_TMS_MASK = bundle_bit (dedic_out s) GPIO_TMS_MASK /\
  bundle_bit (dedic_out (snd r)) GPIO_TRST_MASK = bundle_bit (dedic_out s) GPIO_TRST_MASK /\
  bundle_bit (dedic_out (snd r)) GPIO_SRST_MASK = bundle_bit (dedic_out s) GPIO_SRST_MASK /\
  calls_since s (snd r) =
    [Call_dedic_gpio_cpu_ll_write_mask GPIO_BLINK_MASK
       (if c_true on then GPIO_BLINK_MASK else 0)] /\
  pins (snd r) = pins s.
Proof.
  intros r. subst r.
  destruct (esp_gpio_blink_run on s) as (Hret & Hout & Hcalls & Hpins).
  rewrite Hout.
  split; [exact Hret|].
  split; [masks_as_powers; bit_written; reflexivity|].
  split; [apply masked_update_frame|].
  do 5 (split; [masks_as_powers; bit_kept; reflexivity|]).
  split; [apply calls_since_app; exact Hcalls | exact Hpins].
Qed.

(** X2: of two [esp_gpio_write] calls in a row only the second shows in the
    output word: the word is the one the second call alone would have
    left.  In particular, repeating a write changes nothing. *)
Theorem esp_gpio_write_last_write_wins
    (tck tms tdi tck' tms' tdi' : Z) (s : driver_state) :
  dedic_out (snd (call (esp_gpio_write tck' tms' tdi')
                    (snd (call (esp_gpio_write tck tms tdi) s)))) =
  dedic_out (snd (call (esp_gpio_write tck' tms' tdi') s)).
Proof.
  destruct (esp_gpio_write_run tck' tms' tdi'
              (snd (call (esp_gpio_write tck tms tdi) s))) as (_ & Hout2 & _).
  destruct (esp_gpio_write_run tck tms tdi s) as (_ & Hout1 & _).
  destruct (esp_gpio_write_run tck' tms' tdi' s) as (_ & Hout & _).
  cbv zeta in Hout1, Hout2, Hout.
  rewrite Hout2, Hout1, Hout.
  compare_bits.
Qed.

(** X3: [esp_gpio_write] and [esp_gpio_reset] do not disturb each other:
    in either order they leave the same output word and the same pins. *)
Theorem esp_gpio_write_reset_commute
    (tck tms tdi trst srst : Z) (s : driver_state) :
  dedic_out (snd (call (esp_gpio_reset trst srst)
                    (snd (call (esp_gpio_write tck tms tdi) s)))) =
  dedic_out (snd (call (esp_gpio_write tck tms tdi)
                    (snd (call (esp_gpio_reset trst srst) s)))) /\
  pins (snd (call (esp_gpio_reset trst srst)
               (snd (call (esp_gpio_write tck tms tdi) s)))) =
  pins (snd (call (esp_gpio_write tck tms tdi)
               (snd (call (esp_gpio_reset trst srst) s)))).
Proof.
  destruct (esp_gpio_write_run tck tms tdi s) as (_ & Hw1 & _ & Hp1 & _).
  destruct (esp_gpio_reset_run trst srst (snd (call (esp_gpio_write tck tms tdi) s)))
    as (_ & Hr2 & _ & Hp2 & _).
  destruct (esp_gpio_reset_run trst srst s) as (_ & Hr1 & _ & Hp3 & _).
  destruct (esp_gpio_write_run tck tms tdi (snd (call (esp_gpio_reset trst srst) s)))
    as (_ & Hw2 & _ & Hp4 & _).
  cbv zeta in Hw1, Hr2, Hr1, Hw2.
  split.
  - rewrite Hr2, Hw2, Hw1, Hr1, Hp1.
    destruct (trst_gpio (pins s) =? GPIO_NUM_NC), (srst_gpio (pins s) =? GPIO_NUM_NC);
      cbn [negb]; compare_bits.
  - rewrite Hp2, Hp1, Hp4, Hp3. reflexivity.
Qed.

Lemma esp_gpio_swdio_write_run (swclk swdio : Z) (s : driver_state) :
  call (esp_gpio_swdio_write swclk swdio) s =
  (ESP_OK,
   with_hw_calls
     (hw_calls s ++
      [Call_gpio_ll_set_level (swclk_gpio (pins s)) (if c_true swclk then 1 else 0);
       Call_gpio_ll_set_level (swdio_gpio (pins s)) (if c_true swdio then 1 else 0)])
     s).
Proof.
  destruct s as [p d k ib ob bl bi o i gi hc lg co].
  unfold esp_gpio_swdio_write. run_body.
  rewrite busy_wait_falls_through. run_body.
  rewrite <- app_assoc. reflexivity.
Qed.

(** X4: one SWD write cycle followed by a read, with the direction switches
    the engine makes around them: [esp_gpio_swdio_drive(true)],
    [esp_gpio_swdio_write(swclk, swdio)], [esp_gpio_swdio_drive(false)],
    [esp_gpio_swdio_read()].  The write returns [ESP_OK]; the platform sees
    SWDIO made an output, SWCLK set, then SWDIO set, each to the C truth
    value of its argument as 0 or 1, then SWDIO made an input; the
    dedicated-GPIO output word, the bundles and the pins are not touched. *)
Theorem swd_write_read_cycle (swclk swdio : Z) (s : driver_state) :
  let s1 := call_void (esp_gpio_swdio_drive true) s in
  let r2 := call (esp_gpio_swdio_write swclk swdio) s1 in
  let s3 := call_void (esp_gpio_swdio_drive false) (snd r2) in
  let r4 := call esp_gpio_swdio_read s3 in
  fst r2 = ESP_OK /\
  calls_since s (snd r4) =
    [Call_gpio_set_direction (swdio_gpio (pins s)) GPIO_MODE_OUTPUT;
     Call_gpio_ll_set_level (swclk_gpio (pins s)) (if c_true swclk then 1 else 0);
     Call_gpio_ll_set_level (swdio_gpio (pins s)) (if c_true swdio then 1 else 0);
     Call_gpio_set_direction (swdio_gpio (pins s)) GPIO_MODE_INPUT] /\
  dedic_out (snd r4) = dedic_out s /\
  gpio_out_bundle (snd r4) = gpio_out_bundle s /\
  gpio_in_bundle (snd r4) = gpio_in_bundle s /\
  pins (snd r4) = pins s.
Proof.
  intros s1 r2 s3 r4. subst s1 r2 s3 r4.
  rewrite esp_gpio_swdio_write_run.
  destruct s as [p d k ib ob bl bi o i gi hc lg co].
  unfold esp_gpio_swdio_drive, esp_gpio_swdio_read. run_body.
  split; [reflexivity|].
  split; [|repeat split; reflexivity].
  apply calls_since_app. run_body.
  rewrite <- !app_assoc. reflexivity.
Qed.

(** ** Further properties of the configuration commands *)

Ltac unfold_handlers :=
  cbn [esp_gpio_command_handlers];
  unfold esp_gpio_handle_jtag_gpionums, esp_gpio_handle_jtag_gpionum_tck,
    esp_gpio_handle_jtag_gpionum_tms, esp_gpio_handle_jtag_gpionum_tdo,
    esp_gpio_handle_jtag_gpionum_tdi, esp_gpio_handle_jtag_gpionum_srst,
    esp_gpio_handle_jtag_gpionum_trst, esp_gpio_handle_jtag_gpionum_blink,
    esp_gpio_handle_swd_gpionums, esp_gpio_handle_swd_gpionum_swclk,
    esp_gpio_handle_swd_gpionum_swdio, COMMAND_PARSE_NUMBER_int, ARGV;
  cbv zeta; cbn [List.length Nat.eqb nth negb].

Section CommandProperties.

Context {helper : CommandHelper}.

(** X5: a single-pin command given one argument that parses to [n] returns
    [ERROR_OK], stores [n] in its own pin and in no other, and prints the
    new value; the zero-argument query that follows prints [n] again and
    changes no pin. *)
Theorem single_pin_command_stores_and_reports
    (c : command) (a : string) (n : Z) (s : driver_state) :
  is_group_command c = false ->
  parse_int a = ParseOk n ->
  let r := call (esp_gpio_command_handlers c [a]) s in
  let q := call (esp_gpio_command_handlers c []) (snd r) in
  fst r = ERROR_OK /\
  pins (snd r) = assigned_by c n (pins s) /\
  snd (report_line c (pins (snd r))) = [n] /\
  cmd_out (snd r) = cmd_out s ++ [report_line c (pins (snd r))] /\
  hw_calls (snd r) = hw_calls s /\
  fst q = ERROR_OK /\
  pins (snd q) = pins (snd r) /\
  cmd_out (snd q) = cmd_out (snd r) ++ [report_line c (pins (snd r))].
Proof.
  intros Hsingle Hparse r q. subst r q.
  destruct s as [p d k ib ob bl bi o i gi hc lg co].
  destruct c; try discriminate Hsingle;
    unfold_handlers; rewrite Hparse; run_body;
    repeat split; reflexivity.
Qed.

(** X6: a single-pin command given one argument that does not parse returns
    the parser's error code and reassigns no pin; the speed, the bundles,
    the output word and the platform are left alone. *)
Theorem single_pin_command_parse_error
    (c : command) (a : string) (code : Z) (s : driver_state) :
  is_group_command c = false ->
  parse_int a = ParseErr code ->
  let r := call (esp_gpio_command_handlers c [a]) s in
  fst r = code /\ same_driver_and_platform s (snd r).
Proof.
  intros Hsingle Hparse r. subst r.
  destruct s as [p d k ib ob bl bi o i gi hc lg co].
  unfold same_driver_and_platform.
  destruct c; try discriminate Hsingle;
    unfold_handlers; rewrite Hparse; run_body;
    repeat split; reflexivity.
Qed.

(** X7: a group command given its full number of arguments stores them from
    the left, each in its pin (TCK, TMS, TDI, TDO, or SWCLK, SWDIO), and
    stops at the first argument that does not parse: the pins before it
    hold their new values, the pins from it on keep their old ones, and the
    command returns that argument's error code.  When all arguments parse it
    returns [ERROR_OK] and prints the new values. *)
Theorem group_command_stores_left_to_right
    (c : command) (CMD_ARGV : list string) (s : driver_state) :
  is_group_command c = true ->
  List.length CMD_ARGV = expected_argc c ->
  let r := call (esp_gpio_command_handlers c CMD_ARGV) s in
  pins (snd r) = store_values (group_pins c) (fst (parsed_prefix CMD_ARGV)) (pins s) /\
  fst r = match snd (parsed_prefix CMD_ARGV) with
          | Some code => code
          | None => ERROR_OK
          end /\
  (snd (parsed_prefix CMD_ARGV) = None ->
     snd (report_line c (pins (snd r))) = fst (parsed_prefix CMD_ARGV) /\
     cmd_out (snd r) = cmd_out s ++ [report_line c (pins (snd r))]) /\
  hw_calls (snd r) = hw_calls s /\
  s_jtag_speed_khz (snd r) = s_jtag_speed_khz s.
Proof.
  intros Hgroup Hargc r. subst r.
  destruct s as [p d k ib ob bl bi o i gi hc lg co].
  destruct c; try discriminate Hgroup; cbn [expected_argc] in Hargc.
  - destruct CMD_ARGV as [|a0 [|a1 [|a2 [|a3 [|a4 rest]]]]]; try discriminate Hargc.
    unfold_handlers. cbn [parsed_prefix group_pins].
    destruct (parse_int a0) as [n0|e0]; [|run_body; cbn; repeat split; try reflexivity; discriminate].
    destruct (parse_int a1) as [n1|e1]; [|run_body; cbn; repeat split; try reflexivity; discriminate].
    destruct (parse_int a2) as [n2|e2]; [|run_body; cbn; repeat split; try reflexivity; discriminate].
    destruct (parse_int a3) as [n3|e3]; [|run_body; cbn; repeat split; try reflexivity; discriminate].
    run_body. cbn. repeat split; reflexivity.
  - destruct CMD_ARGV as [|a0 [|a1 [|a2 rest]]]; try discriminate Hargc.
    unfold_handlers. cbn [parsed_prefix group_pins].
    destruct (parse_int a0) as [n0|e0]; [|run_body; cbn; repeat split; try reflexivity; discriminate].
    destruct (parse_int a1) as [n1|e1]; [|run_body; cbn; repeat split; try reflexivity; discriminate].
    run_body. cbn. repeat split; reflexivity.
Qed.

End CommandProperties.

Lemma single_pin_command_stores_and_reports_witness :
  trst_gpio (pins (snd (call (@esp_gpio_command_handlers example_helper
                                esp_gpio_trst_num ["12"]) jtag_pins_4_5_6_7))) = 12 /\
  tck_gpio (pins (snd (call (@esp_gpio_command_handlers example_helper
                               esp_gpio_trst_num ["12"]) jtag_pins_4_5_6_7))) = 4.
Proof.
  destruct (@single_pin_command_stores_and_reports example_helper
              esp_gpio_trst_num "12" 12 jtag_pins_4_5_6_7 eq_refl eq_refl)
    as (_ & Hpins & _).
  rewrite Hpins. split; reflexivity.
Defined.

Lemma single_pin_command_parse_error_witness :
  fst (call (@esp_gpio_command_handlers example_helper esp_gpio_tck_num ["x"])
         jtag_pins_4_5_6_7) = -603 /\
  pins (snd (call (@esp_gpio_command_handlers example_helper esp_gpio_tck_num ["x"])
               jtag_pins_4_5_6_7)) = pins jtag_pins_4_5_6_7.
Proof.
  destruct (@single_pin_command_parse_error example_helper
              esp_gpio_tck_num "x" (-603) jtag_pins_4_5_6_7 eq_refl eq_refl)
    as (Hret & Hpins & _).
  split; [exact Hret | exact Hpins].
Defined.

(** [esp_gpio_jtag_nums 8 9 x 11] on top of pins 4 5 6 7: TCK and TMS are
    reassigned, TDI and TDO are not, and the parser's code comes back. *)
Lemma group_command_stores_left_to_right_witness :
  fst (call (@esp_gpio_command_handlers example_helper esp_gpio_jtag_nums
               ["8"; "9"; "x"; "11"]) jtag_pins_4_5_6_7) = -603 /\
  pins (snd (call (@esp_gpio_command_handlers example_helper esp_gpio_jtag_nums
                     ["8"; "9"; "x"; "11"]) jtag_pins_4_5_6_7)) =
  set_tms_gpio 9 (set_tck_gpio 8 (pins jtag_pins_4_5_6_7)).
Proof.
  destruct (@group_command_stores_left_to_right example_helper esp_gpio_jtag_nums
              ["8"; "9"; "x"; "11"] jtag_pins_4_5_6_7 eq_refl eq_refl)
    as (Hpins & Hret & _).
  split; [exact Hret | exact Hpins].
Defined.

(** ** Further properties of [esp_gpio_init] *)

Section InitFurther.

Context {soc : Soc}.

Lemma jtag_block_fails_pins (t : transport_queries) (s s' : driver_state) :
  pins s' = pins s -> jtag_block_fails t s' = jtag_block_fails t s.
Proof.
  intros H. unfold jtag_block_fails.
  rewrite (esp_gpio_jtag_mode_possible_pins s s' H). reflexivity.
Qed.

Lemma jtag_block_sets_up_pins (t : transport_queries) (s s' : driver_state) :
  pins s' = pins s -> jtag_block_sets_up t s' = jtag_block_sets_up t s.
Proof.
  intros H. unfold jtag_block_sets_up.
  rewrite (esp_gpio_jtag_mode_possible_pins s s' H). reflexivity.
Qed.

Lemma swd_block_fails_pins (t : transport_queries) (s s' : driver_state) :
  pins s' = pins s -> swd_block_fails t s' = swd_block_fails t s.
Proof.
  intros H. unfold swd_block_fails.
  rewrite (jtag_block_fails_pins t s s' H), (esp_gpio_swd_mode_possible_pins s s' H).
  reflexivity.
Qed.

Lemma swd_block_sets_up_pins (t : transport_queries) (s s' : driver_state) :
  pins s' = pins s -> swd_block_sets_up t s' = swd_block_sets_up t s.
Proof.
  intros H. unfold swd_block_sets_up.
  rewrite (jtag_block_fails_pins t s s' H), (esp_gpio_swd_mode_possible_pins s s' H).
  reflexivity.
Qed.

(** X8: a successful [esp_gpio_init] installs [esp_gpio_bitbang] as the
    bit-bang interface.  The blink callback is replaced only when an
    indicator pin is assigned: by [esp_gpio_swdio_blink] if the SWD block
    ran, else by [esp_gpio_blink] if the JTAG block ran.  With no indicator
    pin, or with neither transport answering, the callback stays as it
    was: [esp_gpio_init] never clears it. *)
Theorem esp_gpio_init_installs_callbacks (t : transport_queries) (s : driver_state) :
  fst (call (esp_gpio_init t) s) = ERROR_OK ->
  let s' := snd (call (esp_gpio_init t) s) in
  bitbang_interface s' = Some ref_esp_gpio_bitbang /\
  esp_gpio_bitbang_blink s' =
    (if blink_gpio (pins s) =? GPIO_NUM_NC then esp_gpio_bitbang_blink s
     else if transport_is_swd t then Some fn_esp_gpio_swdio_blink
     else if transport_is_jtag t then Some fn_esp_gpio_blink
     else esp_gpio_bitbang_blink s).
Proof.
  intros Hok s'. subst s'.
  destruct (esp_gpio_init_run t s)
    as (Hret & _ & _ & _ & _ & _ & _ & _ & Hbi & Hbl & _).
  cbv zeta in Hret, Hbi. rewrite Hret in Hok. rewrite Hbl. clear Hbl Hret.
  unfold swd_block_fails, swd_block_sets_up, jtag_block_fails, jtag_block_sets_up in *.
  destruct (transport_is_jtag t), (transport_is_swd t),
           (esp_gpio_jtag_mode_possible s), (esp_gpio_swd_mode_possible s),
           (blink_gpio (pins s) =? GPIO_NUM_NC);
    cbn [andb orb negb] in *; try discriminate Hok; split; assumption || reflexivity.
Qed.

(** X9: when the JTAG transport is not requested, [esp_gpio_init] asks for
    no bundle and leaves both bundle handles and the output word as they
    were, whether the SWD block runs, fails or is skipped. *)
Theorem esp_gpio_init_without_jtag_allocates_nothing
    (t : transport_queries) (s : driver_state) :
  transport_is_jtag t = false ->
  let s' := snd (call (esp_gpio_init t) s) in
  bundles_requested (calls_since s s') = [] /\
  gpio_out_bundle s' = gpio_out_bundle s /\
  gpio_in_bundle s' = gpio_in_bundle s /\
  dedic_out s' = dedic_out s.
Proof.
  intros Hjtag s'. subst s'.
  destruct (esp_gpio_init_run t s)
    as (_ & Hcalls & _ & _ & Hdo & _ & Hout & Hin & _).
  unfold jtag_block_sets_up in *. rewrite Hjtag in *. cbn [andb app] in *.
  rewrite (calls_since_app _ _ _ Hcalls).
  split; [|repeat split; assumption].
  destruct (swd_block_sets_up t s);
    [apply bundles_requested_swd_path | reflexivity].
Qed.

(** X10: [esp_gpio_init] has no guard against being called again.  A
    second call under the same transport answers returns what the first
    returned and repeats every platform call of the first, a second pair
    of bundle requests included. *)
Theorem esp_gpio_init_repeats (t : transport_queries) (s : driver_state) :
  let s1 := snd (call (esp_gpio_init t) s) in
  let s2 := snd (call (esp_gpio_init t) s1) in
  fst (call (esp_gpio_init t) s1) = fst (call (esp_gpio_init t) s) /\
  hw_calls s2 = hw_calls s ++ calls_since s s1 ++ calls_since s s1 /\
  bundles_requested (calls_since s s2) =
    bundles_requested (calls_since s s1) ++ bundles_requested (calls_since s s1).
Proof.
  intros s1 s2. subst s1 s2.
  destruct (esp_gpio_init_run t s) as (Hret1 & Hcalls1 & Hpins1 & _).
  destruct (esp_gpio_init_run t (snd (call (esp_gpio_init t) s)))
    as (Hret2 & Hcalls2 & _).
  cbv zeta in Hret1, Hret2.
  rewrite (jtag_block_fails_pins t _ _ Hpins1), (swd_block_fails_pins t _ _ Hpins1)
    in Hret2.
  rewrite (jtag_block_sets_up_pins t _ _ Hpins1), (swd_block_sets_up_pins t _ _ Hpins1),
    Hpins1 in Hcalls2.
  pose proof (calls_since_app _ _ _ Hcalls1) as Hsince1.
  assert (Hall : hw_calls (snd (call (esp_gpio_init t) (snd (call (esp_gpio_init t) s)))) =
                 hw_calls s ++ calls_since s (snd (call (esp_gpio_init t) s)) ++
                 calls_since s (snd (call (esp_gpio_init t) s))).
  { rewrite Hcalls2, Hsince1, Hcalls1, <- app_assoc. reflexivity. }
  split; [rewrite Hret2, Hret1; reflexivity|].
  split; [exact Hall|].
  rewrite (calls_since_app _ _ _ Hall). apply bundles_requested_app.
Qed.

(** X11: on a platform whose validity checks refuse the not-connected
    value, [esp_gpio_init] fails with [ERROR_FAIL] as long as a pin the
    requested transport needs is still unassigned: TCK, TMS, TDI or TDO for
    JTAG, then without any platform call; SWCLK or SWDIO for SWD. *)
Theorem esp_gpio_init_needs_assigned_pins (t : transport_queries) (s : driver_state) :
  GPIO_IS_VALID_GPIO GPIO_NUM_NC = false ->
  GPIO_IS_VALID_OUTPUT_GPIO GPIO_NUM_NC = false ->
  (transport_is_jtag t = true ->
   tck_gpio (pins s) = GPIO_NUM_NC \/ tms_gpio (pins s) = GPIO_NUM_NC \/
   tdi_gpio (pins s) = GPIO_NUM_NC \/ tdo_gpio (pins s) = GPIO_NUM_NC ->
   fst (call (esp_gpio_init t) s) = ERROR_FAIL /\
   hw_calls (snd (call (esp_gpio_init t) s)) = hw_calls s) /\
  (transport_is_swd t = true ->
   swclk_gpio (pins s) = GPIO_NUM_NC \/ swdio_gpio (pins s) = GPIO_NUM_NC ->
   fst (call (esp_gpio_init t) s) = ERROR_FAIL).
Proof.
  intros Hnc Hnc_out.
  destruct (esp_gpio_init_run t s) as (Hret & Hcalls & _).
  cbv zeta in Hret.
  unfold swd_block_fails, swd_block_sets_up, jtag_block_fails, jtag_block_sets_up in *.
  split.
  - intros Hjtag Hpin.
    assert (Hbad : esp_gpio_jtag_mode_possible s = false).
    { unfold esp_gpio_jtag_mode_possible.
      destruct Hpin as [H|[H|[H|H]]]; rewrite H, ?Hnc, ?Hnc_out; cbn [negb];
        repeat match goal with
               | |- (if negb ?b then false else _) = false => destruct b; cbn [negb]
               end; reflexivity. }
    rewrite Hjtag, Hbad in *. cbn [andb orb negb app] in *.
    split; [exact Hret | rewrite Hcalls; apply app_nil_r].
  - intros Hswd Hpin.
    assert (Hbad : esp_gpio_swd_mode_possible s = false).
    { unfold esp_gpio_swd_mode_possible.
      destruct Hpin as [H|H]; rewrite H, ?Hnc; cbn [negb];
        repeat match goal with
               | |- (if negb ?b then false else _) = false => destruct b; cbn [negb]
               end; reflexivity. }
    rewrite Hswd, Hbad in Hret.
    destruct (transport_is_jtag t), (esp_gpio_jtag_mode_possible s);
      cbn [andb orb negb] in Hret; exact Hret.
Qed.

End InitFurther.

Lemma esp_gpio_init_installs_callbacks_witness :
  esp_gpio_bitbang_blink
    (snd (call (@esp_gpio_init example_soc (session JTAG))
            (with_pins (set_blink_gpio 2) jtag_pins_4_5_6_7))) = Some fn_esp_gpio_blink /\
  esp_gpio_bitbang_blink
    (snd (call (@esp_gpio_init example_soc (session JTAG)) jtag_pins_4_5_6_7)) = None.
Proof.
  destruct (@esp_gpio_init_installs_callbacks example_soc (session JTAG)
              (with_pins (set_blink_gpio 2) jtag_pins_4_5_6_7) eq_refl) as [_ H1].
  destruct (@esp_gpio_init_installs_callbacks example_soc (session JTAG)
              jtag_pins_4_5_6_7 eq_refl) as [_ H2].
  split; [exact H1 | exact H2].
Defined.

Lemma esp_gpio_init_without_jtag_allocates_nothing_witness :
  bundles_requested
    (calls_since swd_pins_10_11
       (snd (call (@esp_gpio_init example_soc (session SWD)) swd_pins_10_11))) = [] /\
  gpio_out_bundle
    (snd (call (@esp_gpio_init example_soc (session SWD)) swd_pins_10_11)) = None.
Proof.
  destruct (@esp_gpio_init_without_jtag_allocates_nothing example_soc (session SWD)
              swd_pins_10_11 eq_refl) as (Hnone & Hout & _).
  split; [exact Hnone | exact Hout].
Defined.

Lemma esp_gpio_init_needs_assigned_pins_witness :
  fst (call (@esp_gpio_init example_soc (session JTAG))
         (with_pins (set_tdo_gpio GPIO_NUM_NC) jtag_pins_4_5_6_7)) = ERROR_FAIL /\
  fst (call (@esp_gpio_init example_soc (session SWD)) startup_state) = ERROR_FAIL.
Proof.
  destruct (@esp_gpio_init_needs_assigned_pins example_soc (session JTAG)
              (with_pins (set_tdo_gpio GPIO_NUM_NC) jtag_pins_4_5_6_7) eq_refl eq_refl)
    as [Hjtag _].
  destruct (@esp_gpio_init_needs_assigned_pins example_soc (session SWD)
              startup_state eq_refl eq_refl) as [_ Hswd].
  split.
  - apply Hjtag; [reflexivity | right; right; right; reflexivity].
  - apply Hswd; [reflexivity | left; reflexivity].
Defined.

(** ** What no sequence of calls changes *)

Section Invariants.

Context {soc : Soc} {helper : CommandHelper}.

(** A configuration command leaves alone whatever does not depend on the
    pin statics and on what has been printed. *)
Lemma command_keeps {C : Type} (f : driver_state -> C)
    (c : command) (CMD_ARGV : list string) :
  (forall g s, f (with_pins g s) = f s) ->
  (forall v s, f (with_cmd_out v s) = f s) ->
  keeps f (esp_gpio_command_handlers c CMD_ARGV).
Proof.
  intros Hpins Hout.
  destruct c; cbn [esp_gpio_command_handlers];
    unfold esp_gpio_handle_jtag_gpionums, esp_gpio_handle_jtag_gpionum_tck,
      esp_gpio_handle_jtag_gpionum_tms, esp_gpio_handle_jtag_gpionum_tdo,
      esp_gpio_handle_jtag_gpionum_tdi, esp_gpio_handle_jtag_gpionum_srst,
      esp_gpio_handle_jtag_gpionum_trst, esp_gpio_handle_jtag_gpionum_blink,
      esp_gpio_handle_swd_gpionums, esp_gpio_handle_swd_gpionum_swclk,
      esp_gpio_handle_swd_gpionum_swdio, COMMAND_PARSE_NUMBER_int, command_print;
    cbv zeta;
    repeat first [ apply keeps_modify; intros s; first [apply Hpins | apply Hout]
                 | keeps_step ].
Qed.

(** A masked write under one of the driver's masks keeps the foreign
    bits. *)
Ltac keeps_foreign_bits :=
  unfold gpio_mode_input_set, gpio_mode_output_set, gpio_mode_input_output_set,
    gpio_set, gpio_clear, gpio_set_direction, gpio_set_level, gpio_ll_set_level,
    gpio_ll_get_level, dedic_gpio_cpu_ll_write_mask, dedic_gpio_cpu_ll_read_in,
    busy_wait, emit, LOG, command_print;
  repeat first
    [ keeps_step
    | apply keeps_modify; intros s; unfold foreign_bits;
      cbn [dedic_out with_dedic_out];
      apply masked_update_frame_wider; reflexivity ].

Lemma run_op_keeps_pins (o : driver_op) (s : driver_state) :
  is_command_call (Adapter_op o) = false ->
  pins (run_op o s) = pins s.
Proof.
  destruct o; cbn [is_command_call]; intros Hnc; try discriminate Hnc;
    cbn [run_op]; unfold call_void; rewrite ?snd_call;
    try match goal with
        | |- pins (snd (?m s)) = _ => revert s; change (keeps pins m)
        end.
  - unfold esp_gpio_read. keeps_auto.
  - unfold esp_gpio_write. keeps_auto.
  - unfold esp_gpio_reset. keeps_auto.
  - unfold esp_gpio_blink. keeps_auto.
  - unfold esp_gpio_swdio_drive. keeps_auto.
  - unfold esp_gpio_swdio_read. keeps_auto.
  - unfold esp_gpio_swdio_write. keeps_auto.
  - unfold esp_gpio_swdio_blink. keeps_auto.
  - unfold esp_gpio_speed. keeps_auto.
  - reflexivity.
  - unfold esp_gpio_quit. keeps_auto.
Qed.

Lemma run_op_keeps_jtag_delay (o : driver_op) (s : driver_state) :
  jtag_delay (run_op o s) = jtag_delay s.
Proof.
  destruct o; cbn [run_op]; unfold call_void; rewrite ?snd_call;
    try match goal with
        | |- jtag_delay (snd (?m s)) = _ => revert s; change (keeps jtag_delay m)
        end.
  - unfold esp_gpio_read. keeps_auto.
  - unfold esp_gpio_write. keeps_auto.
  - unfold esp_gpio_reset. keeps_auto.
  - unfold esp_gpio_blink. keeps_auto.
  - unfold esp_gpio_swdio_drive. keeps_auto.
  - unfold esp_gpio_swdio_read. keeps_auto.
  - unfold esp_gpio_swdio_write. keeps_auto.
  - unfold esp_gpio_swdio_blink. keeps_auto.
  - unfold esp_gpio_speed. keeps_auto.
  - reflexivity.
  - unfold esp_gpio_quit. keeps_auto.
  - apply command_keeps; intros ? [? ? ? ? ? ? ? ? ? ? ? ? ?]; reflexivity.
Qed.

Lemma run_op_keeps_foreign_bits (o : driver_op) (s : driver_state) :
  foreign_bits (run_op o s) = foreign_bits s.
Proof.
  destruct o; cbn [run_op]; unfold call_void; rewrite ?snd_call;
    try match goal with
        | |- foreign_bits (snd (?m s)) = _ => revert s; change (keeps foreign_bits m)
        end.
  - unfold esp_gpio_read. keeps_foreign_bits.
  - unfold esp_gpio_write. keeps_foreign_bits.
  - unfold esp_gpio_reset. keeps_foreign_bits.
  - unfold esp_gpio_blink. keeps_foreign_bits.
  - unfold esp_gpio_swdio_drive. keeps_foreign_bits.
  - unfold esp_gpio_swdio_read. keeps_foreign_bits.
  - unfold esp_gpio_swdio_write. keeps_foreign_bits.
  - unfold esp_gpio_swdio_blink. keeps_foreign_bits.
  - unfold esp_gpio_speed. keeps_foreign_bits.
  - reflexivity.
  - unfold esp_gpio_quit. keeps_foreign_bits.
  - apply command_keeps; intros ? [? ? ? ? ? ? ? ? ? ? ? ? ?]; reflexivity.
Qed.

Lemma esp_gpio_khz_touches_speed_and_log (khz jtag_speed : Z) (s : driver_state) :
  pins (snd (esp_gpio_khz khz jtag_speed s)) = pins s /\
  jtag_delay (snd (esp_gpio_khz khz jtag_speed s)) = jtag_delay s /\
  dedic_out (snd (esp_gpio_khz khz jtag_speed s)) = dedic_out s.
Proof.
  destruct s as [p d k ib ob bl bi o i gi hc lg co].
  unfold esp_gpio_khz. destruct (negb (c_true khz)); run_body;
    repeat split; reflexivity.
Qed.

(** An observation that every allowed call keeps is kept by every sequence
    of allowed calls. *)
Lemma run_adapter_calls_keep {C : Type} (f : driver_state -> C)
    (allowed : adapter_call -> bool) :
  (forall c s, allowed c = true -> f (run_adapter_call c s) = f s) ->
  forall l s, forallb allowed l = true -> f (run_adapter_calls l s) = f s.
Proof.
  intros Hstep l. unfold run_adapter_calls.
  induction l as [|c l IH]; intros s Hall; cbn [fold_left].
  - reflexivity.
  - cbn [forallb] in Hall. apply andb_prop in Hall. destruct Hall as [Hc Hl].
    rewrite IH by exact Hl. apply Hstep. exact Hc.
Qed.

Lemma forallb_always {A : Type} (l : list A) : forallb (fun _ => true) l = true.
Proof. induction l as [|a l IH]; [reflexivity | exact IH]. Qed.

(** X12: only the configuration commands reassign pins.  Through any
    sequence of other calls into the driver, initialisations and speed
    settings included, the nine pin statics keep their values. *)
Theorem only_commands_reassign_pins (l : list adapter_call) (s : driver_state) :
  forallb (fun c => negb (is_command_call c)) l = true ->
  pins (run_adapter_calls l s) = pins s.
Proof.
  apply (run_adapter_calls_keep pins (fun c => negb (is_command_call c))).
  intros c s' Hc. apply negb_true_iff in Hc.
  destruct c as [o|khz js|t]; cbn [run_adapter_call].
  - apply run_op_keeps_pins. exact Hc.
  - apply esp_gpio_khz_touches_speed_and_log.
  - destruct (esp_gpio_init_run t s') as (_ & _ & Hpins & _). exact Hpins.
Qed.

(** X13: nothing in the driver writes [jtag_delay] ([esp_gpio_speed] has
    its assignment commented out): through any sequence of calls it keeps
    its value, so from the initial 0 the delay loops never spin. *)
Theorem jtag_delay_never_changes (l : list adapter_call) (s : driver_state) :
  jtag_delay (run_adapter_calls l s) = jtag_delay s.
Proof.
  apply (run_adapter_calls_keep jtag_delay (fun _ => true)); [|apply forallb_always].
  intros c s' _.
  destruct c as [o|khz js|t]; cbn [run_adapter_call].
  - apply run_op_keeps_jtag_delay.
  - apply esp_gpio_khz_touches_speed_and_log.
  - destruct (esp_gpio_init_run t s') as (_ & _ & _ & Hdelay & _). exact Hdelay.
Qed.

(** X14: the driver only ever writes the six bits of the output word that
    its masks name.  Through any sequence of calls every other bit of the
    dedicated-GPIO output word keeps its value. *)
Theorem foreign_bits_never_change (l : list adapter_call) (s : driver_state) :
  Z.land (dedic_out (run_adapter_calls l s)) (Z.lnot GPIO_OUTPUT_MASKS) =
  Z.land (dedic_out s) (Z.lnot GPIO_OUTPUT_MASKS).
Proof.
  change (foreign_bits (run_adapter_calls l s) = foreign_bits s).
  apply (run_adapter_calls_keep foreign_bits (fun _ => true)); [|apply forallb_always].
  intros c s' _.
  destruct c as [o|khz js|t]; cbn [run_adapter_call].
  - apply run_op_keeps_foreign_bits.
  - unfold foreign_bits.
    destruct (esp_gpio_khz_touches_speed_and_log khz js s') as (_ & _ & Hdo).
    rewrite Hdo. reflexivity.
  - unfold foreign_bits.
    destruct (esp_gpio_init_run t s') as (_ & _ & _ & _ & Hdo & _).
    rewrite Hdo. reflexivity.
Qed.

End Invariants.

Lemma only_commands_reassign_pins_witness :
  pins (@run_adapter_calls example_soc example_helper
          [Adapter_init (session JTAG); Adapter_op (Op_write 1 0 1);
           Adapter_op (Op_reset 1 0); Adapter_khz 1000 0]
          jtag_pins_4_5_6_7) = pins jtag_pins_4_5_6_7.
Proof.
  apply (@only_commands_reassign_pins example_soc example_helper).
  reflexivity.
Defined.

Section InitWithoutTransport.

Context {soc : Soc}.

(** X15: when neither transport query answers yes, [esp_gpio_init] skips
    both blocks without validating anything: it returns [ERROR_OK] whatever
    the pins are, makes no platform call, allocates no bundle, and still
    installs [esp_gpio_bitbang] as the bit-bang interface and records
    5000 kHz. *)
Theorem esp_gpio_init_without_transport (t : transport_queries) (s : driver_state) :
  transport_is_jtag t = false ->
  transport_is_swd t = false ->
  let r := call (esp_gpio_init t) s in
  fst r = ERROR_OK /\
  hw_calls (snd r) = hw_calls s /\
  gpio_out_bundle (snd r) = gpio_out_bundle s /\
  gpio_in_bundle (snd r) = gpio_in_bundle s /\
  esp_gpio_bitbang_blink (snd r) = esp_gpio_bitbang_blink s /\
  bitbang_interface (snd r) = Some ref_esp_gpio_bitbang /\
  s_jtag_speed_khz (snd r) = 5000.
Proof.
  intros Hjtag Hswd r. subst r.
  destruct (esp_gpio_init_run t s)
    as (Hret & Hcalls & _ & _ & _ & Hspeed & Hout & Hin & Hbi & Hbl & _).
  cbv zeta in Hret, Hbi.
  unfold swd_block_fails, swd_block_sets_up, jtag_block_fails, jtag_block_sets_up in *.
  rewrite Hjtag, Hswd in *. cbn [andb orb negb app] in *.
  rewrite app_nil_r in Hcalls.
  repeat split; assumption.
Qed.

End InitWithoutTransport.

Lemma esp_gpio_init_without_transport_witness :
  fst (call (@esp_gpio_init example_soc
               {| transport_is_jtag := false; transport_is_swd := false |})
         startup_state) = ERROR_OK.
Proof.
  exact (proj1 (@esp_gpio_init_without_transport example_soc
                  {| transport_is_jtag := false; transport_is_swd := false |}
                  startup_state eq_refl eq_refl)).
Defined.
